(** * Slide-deck generator: a shallow embedding and its verified properties

    The development follows [generate-slide-decks.js] (the deck generator) and
    [html-to-json-converter.js] (the extractor's state-variable post-pass).

    Modelling conventions.
    - A JavaScript string is a sequence of UTF-16 code units; the model keeps
      the code units below 256, one [ascii] each.
    - A JavaScript number is an IEEE 754 binary64 value, a [spec_float] with
      precision 53 and maximal exponent 1024.
    - A value produced by [JSON.parse] is a tree [JsVal]; an object keeps its
      own properties in the order [Object.keys] lists them.
    - An exception raised by the source is the [Throw] outcome of [Exc].
    - Console output and file access are outside the model: a function that
      reads a file takes what was read as its argument. *)

From Stdlib Require Import List Bool Arith ZArith Lia.
From Stdlib Require Import Strings.Ascii Strings.String.
From Stdlib Require Import Floats.SpecFloat.
From Stdlib Require Import Numbers.DecimalString.
Import ListNotations.

Local Open Scope list_scope.
Local Open Scope string_scope.

(* ------------------------------------------------------------------ *)
(** ** String built-ins *)

Module Str.

(** [s.startsWith(p)] *)
Definition startsWith (s p : string) : bool := String.prefix p s.

(** [s.includes(sub)]: some suffix of [s] starts with [sub]. *)
Fixpoint includes (s sub : string) : bool :=
  startsWith s sub ||
  match s with
  | EmptyString => false
  | String _ s' => includes s' sub
  end.

Fixpoint drop (n : nat) (s : string) : string :=
  match n, s with
  | O, _ => s
  | S k, String _ s' => drop k s'
  | S _, EmptyString => EmptyString
  end.

(** The scan of [s.split(sep)] for a non-empty [sep]: the piece that runs
    up to the next occurrence of [sep] and the pieces after it.  [skip]
    counts the code units of an occurrence that remain to be passed. *)
Fixpoint split_go (sep : string) (skip : nat) (s : string)
  : string * list string :=
  match s with
  | EmptyString => (EmptyString, [])
  | String c s' =>
      match skip with
      | S k => split_go sep k s'
      | O =>
          if startsWith s sep
          then (EmptyString,
                let '(p, ps) := split_go sep (String.length sep - 1) s' in
                p :: ps)
          else let '(p, ps) := split_go sep O s' in (String c p, ps)
      end
  end.

Fixpoint chars (s : string) : list string :=
  match s with
  | EmptyString => []
  | String c s' => String c EmptyString :: chars s'
  end.

(** [s.split(sep)] *)
Definition split (sep s : string) : list string :=
  match sep with
  | EmptyString => chars s
  | _ => let '(p, ps) := split_go sep O s in p :: ps
  end.

(** [pieces.join(sep)] for an array of strings. *)
Definition join (sep : string) (pieces : list string) : string :=
  String.concat sep pieces.

(** White space and line terminators among the code units below 256:
    TAB, LF, VT, FF, CR, SP and NBSP. *)
Definition isWhiteSpace (c : ascii) : bool :=
  let n := nat_of_ascii c in
  ((9 <=? n)%nat && (n <=? 13)%nat) || (n =? 32)%nat || (n =? 160)%nat.

Fixpoint trimStart (s : string) : string :=
  match s with
  | EmptyString => EmptyString
  | String c s' => if isWhiteSpace c then trimStart s' else s
  end.

(** [trimEnd] keeps a code unit when it is not white space or when
    something is kept after it. *)
Fixpoint trimEnd (s : string) : string :=
  match s with
  | EmptyString => EmptyString
  | String c s' =>
      match trimEnd s' with
      | EmptyString => if isWhiteSpace c then EmptyString
                       else String c EmptyString
      | t => String c t
      end
  end.

(** [s.trim()] *)
Definition trim (s : string) : string := trimEnd (trimStart s).

Definition isEmpty (s : string) : bool :=
  match s with EmptyString => true | _ => false end.

(** The first occurrence of [pat] in [s]: what precedes it and what
    follows it. *)
Fixpoint cut (pat s : string) : option (string * string) :=
  if startsWith s pat then Some (EmptyString, drop (String.length pat) s)
  else match s with
       | EmptyString => None
       | String c s' =>
           match cut pat s' with
           | Some (before, after) => Some (String c before, after)
           | None => None
           end
       end.

(** [GetSubstitution] for a string pattern (no capture groups): in the
    replacement text [$$] is a dollar sign, [$&] the matched text, [$`]
    what precedes the match and [$'] what follows it; any other [$] stands
    for itself. *)
Fixpoint getSubstitution (matched before after repl : string) : string :=
  match repl with
  | EmptyString => EmptyString
  | String c r =>
      if Ascii.eqb c "$" then
        match r with
        | String d r' =>
            if Ascii.eqb d "$" then
              String "$" (getSubstitution matched before after r')
            else if Ascii.eqb d "&" then
              matched ++ getSubstitution matched before after r'
            else if Ascii.eqb d "`" then
              before ++ getSubstitution matched before after r'
            else if Ascii.eqb d "'" then
              after ++ getSubstitution matched before after r'
            else String c (getSubstitution matched before after r)
        | EmptyString => String c EmptyString
        end
      else String c (getSubstitution matched before after r)
  end.

(** [s.replace(pat, repl)] with a string pattern: the first occurrence
    only. *)
Definition replace (pat repl s : string) : string :=
  match cut pat s with
  | Some (before, after) =>
      before ++ getSubstitution pat before after repl ++ after
  | None => s
  end.

(** [s.split(pat).join(by)]: every occurrence, the replacement taken
    literally. *)
Definition replaceAll (pat by_ s : string) : string :=
  join by_ (split pat s).

End Str.

(* ------------------------------------------------------------------ *)
(** ** Number built-ins

    Arithmetic is [SpecFloat]'s, at binary64.  The conversions between
    numbers and decimal text work on the exact rational value of a float. *)

Module Num.

Definition prec : Z := 53.
Definition emax : Z := 1024.

Definition add := SFadd prec emax.
Definition mul := SFmul prec emax.
Definition div := SFdiv prec emax.

(** An integer literal of the source. *)
Definition ofZ (z : Z) : spec_float := binary_normalize prec emax z 0 false.

(** The number nearest to [m * 10^e], ties to even: the value of a decimal
    literal.  [neg] is the sign of a zero result. *)
Definition ofDecimal (neg : bool) (m e : Z) : spec_float :=
  match m with
  | Zpos p =>
      match e with
      | Zneg d =>
          div (S754_finite neg p 0) (S754_finite false (Pos.pow 10 d) 0)
      | _ => binary_round prec emax neg (p * Z.to_pos (10 ^ e))%positive 0
      end
  | _ => S754_zero neg
  end.

Definition isFinite (x : spec_float) : bool :=
  match x with
  | S754_zero _ | S754_finite _ _ _ => true
  | _ => false
  end.

(** [ToBoolean] of a number: zero and NaN are falsy. *)
Definition truthy (x : spec_float) : bool :=
  match x with
  | S754_zero _ | S754_nan => false
  | _ => true
  end.

Definition digitsOfZ (z : Z) : string :=
  NilZero.string_of_uint (N.to_uint (Z.to_N z)).

Fixpoint zeros (n : nat) : string :=
  match n with
  | O => EmptyString
  | S k => String "0" (zeros k)
  end.

Local Open Scope Z_scope.

(** The exact value of [m * 2^e] as a fraction. *)
Definition fracOf (m : positive) (e : Z) : Z * Z :=
  match e with
  | Zneg d => (Zpos m, 2 ^ Zpos d)
  | _ => (Zpos m * 2 ^ e, 1)
  end.

(** [10^n <= p/q] *)
Definition geP10 (p q n : Z) : bool :=
  if 0 <=? n then q * 10 ^ n <=? p else q <=? p * 10 ^ (- n).

Fixpoint adjustUp (fuel : nat) (p q n : Z) : Z :=
  match fuel with
  | O => n
  | S f => if geP10 p q n then adjustUp f p q (n + 1) else n
  end.

Fixpoint adjustDown (fuel : nat) (p q n : Z) : Z :=
  match fuel with
  | O => n
  | S f => if geP10 p q (n - 1) then n else adjustDown f p q (n - 1)
  end.

(** The [n] with [10^(n-1) <= p/q < 10^n], reached from an estimate that is
    off by one at most. *)
Definition decExponent (p q : Z) : Z :=
  adjustDown 8 p q
    (adjustUp 8 p q (((Z.log2 p - Z.log2 q) * 1233) / 4096)).

(** Quotient, remainder and divisor of [(p/q) / 10^sc]. *)
Definition scaled (p q sc : Z) : Z * Z * Z :=
  let '(a, b) :=
    if 0 <=? sc then (p, q * 10 ^ sc) else (p * 10 ^ (- sc), q) in
  (a / b, a mod b, b).

Definition sameFinite (x y : spec_float) : bool :=
  match x, y with
  | S754_finite s m e, S754_finite s' m' e' =>
      Bool.eqb s s' && Pos.eqb m m' && Z.eqb e e'
  | _, _ => false
  end.

(** The [k]-digit decimal [s * 10^(n-k)] nearest to [x = p/q] that reads
    back as [x], if there is one; of two equally near the even one. *)
Definition candidate (x : spec_float) (p q n k : Z) : option (Z * Z) :=
  let '(lo, r, b) := scaled p q (n - k) in
  let hi := if lo + 1 =? 10 ^ k then (10 ^ (k - 1), n + 1) else (lo + 1, n) in
  let okLo := sameFinite (ofDecimal false lo (n - k)) x in
  let okHi := sameFinite (ofDecimal false (fst hi) (snd hi - k)) x in
  if r =? 0 then (if okLo then Some (lo, n) else None)
  else match okLo, okHi with
       | true, true =>
           match 2 * r ?= b with
           | Lt => Some (lo, n)
           | Gt => Some hi
           | Eq => if Z.even lo then Some (lo, n) else Some hi
           end
       | true, false => Some (lo, n)
       | false, true => Some hi
       | false, false => None
       end.

(** The digits [s], their count [k] and the decimal exponent [n] of
    [Number::toString]: [k] as small as possible. *)
Fixpoint shortest (fuel : nat) (x : spec_float) (p q n k : Z)
  : Z * Z * Z :=
  match fuel with
  | O => (0, k, n)
  | S f =>
      match candidate x p q n k with
      | Some (s, n') => (s, k, n')
      | None => shortest f x p q n (k + 1)
      end
  end.

Definition signedExp (e : Z) : string :=
  ((if Z.ltb e 0 then "-" else "+") ++ digitsOfZ (Z.abs e))%string.

Definition layoutDigits (ds : string) (k n : Z) : string :=
  (if Z.leb k n && Z.leb n 21 then ds ++ zeros (Z.to_nat (n - k))
   else if Z.ltb 0 n && Z.leb n 21 then
     substring 0 (Z.to_nat n) ds ++ "." ++
     substring (Z.to_nat n) (Z.to_nat (k - n)) ds
   else if Z.ltb (-6) n && Z.leb n 0 then
     "0." ++ zeros (Z.to_nat (- n)) ++ ds
   else if Z.eqb k 1 then ds ++ "e" ++ signedExp (n - 1)
   else substring 0 1 ds ++ "." ++ substring 1 (Z.to_nat (k - 1)) ds ++
        "e" ++ signedExp (n - 1))%string.

(** [Number::toString(x)] in radix 10, which [x.toString()], [String(x)]
    and [JSON.stringify] use. *)
Definition toString (x : spec_float) : string :=
  match x with
  | S754_nan => "NaN"
  | S754_zero _ => "0"
  | S754_infinity s => if s then "-Infinity" else "Infinity"
  | S754_finite s m e =>
      let '(p, q) := fracOf m e in
      let '(d, k, n) :=
        shortest 17 (S754_finite false m e) p q (decExponent p q) 1 in
      ((if s then "-" else "") ++ layoutDigits (digitsOfZ d) k n)%string
  end.

(** [x.toFixed(2)]: the integer nearest to [100 x], the larger of two equally
    near, written with two decimals; [Number::toString] from [10^21] on and
    for a number that is not finite. *)
Definition toFixed2 (x : spec_float) : string :=
  match x with
  | S754_finite s m e =>
      let '(p, q) := fracOf m e in
      ((if s then "-" else "") ++
       (if Z.leb (q * 10 ^ 21) p then toString (S754_finite false m e)
        else
          let ds := digitsOfZ ((200 * p + q) / (2 * q)) in
          let ds := zeros (3 - String.length ds) ++ ds in
          let k := String.length ds in
          substring 0 (k - 2) ds ++ "." ++ substring (k - 2) 2 ds))%string
  | S754_zero _ => "0.00"
  | _ => toString x
  end.

Local Close Scope Z_scope.

Definition isDigit (c : ascii) : bool :=
  let n := nat_of_ascii c in (48 <=? n)%nat && (n <=? 57)%nat.

(** The run of decimal digits [s] starts with, and what follows it. *)
Fixpoint spanDigits (s : string) : string * string :=
  match s with
  | String c s' =>
      if isDigit c
      then let '(ds, r) := spanDigits s' in (String c ds, r)
      else (EmptyString, s)
  | EmptyString => (EmptyString, EmptyString)
  end.

Fixpoint digitsValue (acc : Z) (ds : string) : Z :=
  match ds with
  | EmptyString => acc
  | String c ds' =>
      digitsValue (10 * acc + Z.of_nat (nat_of_ascii c - 48)) ds'
  end.

Definition takeSign (s : string) : bool * string :=
  match s with
  | String "-" r => (true, r)
  | String "+" r => (false, r)
  | _ => (false, s)
  end.

(** The value of an exponent part [e±ddd] at the start of [s], 0 when there
    is none. *)
Definition exponentPart (s : string) : Z :=
  match s with
  | String c r =>
      if Ascii.eqb c "e" || Ascii.eqb c "E" then
        let '(neg, r') := takeSign r in
        let '(ds, _) := spanDigits r' in
        if neg then (- digitsValue 0 ds)%Z else digitsValue 0 ds
      else 0%Z
  | EmptyString => 0%Z
  end.

(** [parseFloat(input)] for a string: leading white space is skipped, the
    longest prefix that is a decimal literal is read, NaN when there is
    none. *)
Definition parseFloat (input : string) : spec_float :=
  let '(neg, r) := takeSign (Str.trimStart input) in
  if String.prefix "Infinity" r then S754_infinity neg
  else
    let '(d1, r1) := spanDigits r in
    let '(d2, r2) :=
      match r1 with
      | String "." r' => spanDigits r'
      | _ => (EmptyString, r1)
      end in
    match (d1 ++ d2)%string with
    | EmptyString => S754_nan
    | ds => ofDecimal neg (digitsValue 0 ds)
              (exponentPart r2 - Z.of_nat (String.length d2))
    end.

End Num.

(* ------------------------------------------------------------------ *)
(** ** Values, exceptions and value built-ins *)

(** The outcome of code that may raise an exception: a [TypeError] in this
    program's own code, any error in reading or parsing a file. *)
Inductive Exc (A : Type) : Type :=
| Ok (a : A)
| Throw.

Arguments Ok {A} a.
Arguments Throw {A}.

Definition bindExc {A B : Type} (m : Exc A) (k : A -> Exc B) : Exc B :=
  match m with
  | Ok a => k a
  | Throw => Throw
  end.

Notation "x <- m ;; k" := (bindExc m (fun x => k))
  (at level 61, m at next level, right associativity).

(** A JavaScript value as [JSON.parse] builds it, and [undefined]. *)
#[local] Set Warnings "-register-all".
Inductive JsVal : Type :=
| JUndefined
| JNull
| JBool (b : bool)
| JNum (x : spec_float)
| JStr (s : string)
| JArr (items : list JsVal)
| JObj (props : list (string * JsVal)).

(** [ToBoolean] *)
Definition truthy (v : JsVal) : bool :=
  match v with
  | JUndefined | JNull => false
  | JBool b => b
  | JNum x => Num.truthy x
  | JStr s => negb (Str.isEmpty s)
  | JArr _ | JObj _ => true
  end.

(** [a || b] *)
Definition orVal (a b : JsVal) : JsVal := if truthy a then a else b.

Definition isNullish (v : JsVal) : bool :=
  match v with
  | JUndefined | JNull => true
  | _ => false
  end.

Fixpoint lookup (props : list (string * JsVal)) (key : string) : JsVal :=
  match props with
  | [] => JUndefined
  | (k, v) :: rest => if String.eqb k key then v else lookup rest key
  end.

(** [v.key] for a [v] that is not [null] or [undefined].  The property
    names this program reads are no properties of strings, numbers, booleans
    or arrays, so only an object can hold one. *)
Definition prop (v : JsVal) (key : string) : JsVal :=
  match v with
  | JObj props => lookup props key
  | _ => JUndefined
  end.

(** [v.key]: a [TypeError] on [null] and [undefined]. *)
Definition get (v : JsVal) (key : string) : Exc JsVal :=
  if isNullish v then Throw else Ok (prop v key).

(** [ToString], which template literals, [join] and [replace] apply.  In an
    array [null] and [undefined] elements give the empty string. *)
Fixpoint ToString (v : JsVal) : string :=
  match v with
  | JUndefined => "undefined"
  | JNull => "null"
  | JBool b => if b then "true" else "false"
  | JNum x => Num.toString x
  | JStr s => s
  | JArr items =>
      Str.join ","
        (map (fun x => if isNullish x then EmptyString else ToString x) items)
  | JObj _ => "[object Object]"
  end.

(** [parseFloat(v)]: of the string [v] converts to. *)
Definition parseFloat (v : JsVal) : spec_float := Num.parseFloat (ToString v).

(** The double quote and the line feed. *)
Definition dq : string := String "034" EmptyString.
Definition nl : string := String "010" EmptyString.

Definition hexDigit (n : nat) : ascii :=
  ascii_of_nat (if (n <? 10)%nat then 48 + n else 87 + n).

(** One code unit inside a JSON string. *)
Definition quoteChar (c : ascii) : string :=
  let n := nat_of_ascii c in
  if (n =? 34)%nat then "\" ++ dq
  else if (n =? 92)%nat then "\\"
  else if (n =? 8)%nat then "\b"
  else if (n =? 12)%nat then "\f"
  else if (n =? 10)%nat then "\n"
  else if (n =? 13)%nat then "\r"
  else if (n =? 9)%nat then "\t"
  else if (n <? 32)%nat then
    "\u00" ++ String (hexDigit (n / 16)) (String (hexDigit (n mod 16)) EmptyString)
  else String c EmptyString.

Fixpoint quoteChars (s : string) : string :=
  match s with
  | EmptyString => EmptyString
  | String c s' => quoteChar c ++ quoteChars s'
  end.

(** [QuoteJSONString] *)
Definition quoteJSONString (s : string) : string := dq ++ quoteChars s ++ dq.

(** The text of an array or object whose members are [partial]. *)
Definition wrapJSON (opening closing gap stepback indent : string)
  (partial : list string) : string :=
  match partial with
  | [] => opening ++ closing
  | _ =>
      if Str.isEmpty gap then opening ++ Str.join "," partial ++ closing
      else opening ++ nl ++ indent ++
           Str.join ("," ++ nl ++ indent) partial ++
           nl ++ stepback ++ closing
  end.

(** [SerializeJSONProperty]: [None] is [undefined].  A number that is not
    finite is [null]; an [undefined] array element is [null]; an object
    property whose value is [undefined] is left out. *)
Fixpoint serializeJSON (gap indent : string) (v : JsVal) : option string :=
  match v with
  | JUndefined => None
  | JNull => Some "null"
  | JBool b => Some (if b then "true" else "false")
  | JNum x => Some (if Num.isFinite x then Num.toString x else "null")
  | JStr s => Some (quoteJSONString s)
  | JArr items =>
      Some (wrapJSON "[" "]" gap indent (indent ++ gap)
              (map (fun x =>
                      match serializeJSON gap (indent ++ gap) x with
                      | Some t => t
                      | None => "null"
                      end) items))
  | JObj props =>
      Some (wrapJSON "{" "}" gap indent (indent ++ gap)
              (flat_map (fun kv =>
                      match serializeJSON gap (indent ++ gap) (snd kv) with
                      | Some t =>
                          [quoteJSONString (fst kv) ++ ":" ++
                           (if Str.isEmpty gap then "" else " ") ++ t]
                      | None => []
                      end) props))
  end.

(** [JSON.stringify(v)] *)
Definition JSON_stringify (v : JsVal) : option string :=
  serializeJSON "" "" v.

(** [JSON.stringify(v, null, 2)] *)
Definition JSON_stringify2 (v : JsVal) : option string :=
  serializeJSON "  " "" v.

(** [`${x}`] where [x] is a string or [undefined]. *)
Definition showOpt (x : option string) : string :=
  match x with
  | Some s => s
  | None => "undefined"
  end.

(* ------------------------------------------------------------------ *)
(** ** The placeholder pattern [/\{\{([A-Z_]+)\}\}/g] *)

(** The class [[A-Z_]]. *)
Definition isNameChar (c : ascii) : bool :=
  let n := nat_of_ascii c in
  ((65 <=? n)%nat && (n <=? 90)%nat) || (n =? 95)%nat.

(** The longest run of [[A-Z_]] that [s] starts with, and what follows. *)
Fixpoint spanName (s : string) : string * string :=
  match s with
  | String c s' =>
      if isNameChar c
      then let '(name, r) := spanName s' in (String c name, r)
      else (EmptyString, s)
  | EmptyString => (EmptyString, EmptyString)
  end.

(** A match of the pattern at the start of [s]: group 1 and what follows
    the match.  The greedy [[A-Z_]+] takes the longest run; a shorter one
    would be followed by a character of the class, never by a brace, so no
    backtracking finds a match the longest run misses. *)
Definition matchAt (s : string) : option (string * string) :=
  if Str.startsWith s "{{" then
    let '(name, r) := spanName (Str.drop 2 s) in
    if negb (Str.isEmpty name) && Str.startsWith r "}}"
    then Some (name, Str.drop 2 r)
    else None
  else None.

(** Group 1 of the successive matches, left to right: after a match the
    search resumes where it ended.  [skip] counts the code units of a match
    that remain to be passed. *)
Fixpoint scanPlaceholders (skip : nat) (s : string) : list string :=
  match s with
  | EmptyString => []
  | String c s' =>
      match skip with
      | S k => scanPlaceholders k s'
      | O =>
          match matchAt s with
          | Some (name, _) =>
              name :: scanPlaceholders (String.length name + 3) s'
          | None => scanPlaceholders O s'
          end
      end
  end.

Definition placeholderNames (s : string) : list string :=
  scanPlaceholders O s.

(** [`{{${key}}}`] *)
Definition placeholder (key : string) : string := "{{" ++ key ++ "}}".

(* ------------------------------------------------------------------ *)
(** ** Chapter mapping parser *)

(** The object [parseChapterMapping] returns.  [stateChapter] is
    [columns[1]], which is [undefined] ([None]) for a row of one cell. *)
Record ChapterMapping := mkChapterMapping {
  stateChapter : option string;
  title : string
}.

(** [a || b] where [a] is a string or [undefined]. *)
Definition orString (a : option string) (b : string) : string :=
  match a with
  | Some s => if Str.isEmpty s then b else s
  | None => b
  end.

(** [a === s] where [a] is a string or [undefined]. *)
Definition strictEqString (a : option string) (s : string) : bool :=
  match a with
  | Some x => String.eqb x s
  | None => false
  end.

(** [markdownContent.split('\n')] *)
Definition mdLines (markdownContent : string) : list string :=
  Str.split (String "010" EmptyString) markdownContent.

(** [lines.filter(line => line.trim().startsWith('|'))] *)
Definition tableRows (markdownContent : string) : list string :=
  filter (fun line => Str.startsWith (Str.trim line) "|")
         (mdLines markdownContent).

(** [row.split('|').map(col => col.trim()).filter(col => col)] *)
Definition rowColumns (row : string) : list string :=
  filter (fun col => negb (Str.isEmpty col))
         (map Str.trim (Str.split "|" row)).

(** The [for (const row of tableRows)] loop: [Some] when a row returned. *)
Fixpoint scanRows (rows : list string) (lChapter : string)
  : option ChapterMapping :=
  match rows with
  | [] => None
  | row :: rest =>
      let columns := rowColumns row in
      if strictEqString (nth_error columns 0) lChapter
      then Some {| stateChapter := nth_error columns 1;
                   title := orString (nth_error columns 2) "Unknown Chapter" |}
      else scanRows rest lChapter
  end.

Definition parseChapterMapping (markdownContent lChapter : string)
  : ChapterMapping :=
  match scanRows (tableRows markdownContent) lChapter with
  | Some m => m
  | None => {| stateChapter := Some (Str.replace "L-" "" lChapter);
               title := "Unknown Chapter" |}
  end.

(* ------------------------------------------------------------------ *)
(** ** Calculated fields *)

(** The state-variable object: its own properties in key order. *)
Definition StateVars : Type := list (string * JsVal).

(** [parseFloat(vars.NAME || 0)] *)
Definition rateOf (vars : StateVars) (name : string) : spec_float :=
  parseFloat (orVal (lookup vars name) (JNum (Num.ofZ 0))).

(** [`$${amount.toFixed(2)}`] *)
Definition currency (amount : spec_float) : string :=
  "$" ++ Num.toFixed2 amount.

Definition CALCULATED_STATE_TAX_MONTHLY (vars : StateVars)
  (baseAmount : spec_float) : string :=
  let rate := rateOf vars "INCOME_TAX_RATE" in
  currency (Num.div (Num.mul baseAmount rate) (Num.ofZ 100)).

Definition CALCULATED_LOCAL_TAX_MONTHLY (vars : StateVars)
  (baseAmount : spec_float) : string :=
  let rate := rateOf vars "LOCAL_INCOME_TAX" in
  currency (Num.div (Num.mul baseAmount rate) (Num.ofZ 100)).

Definition CALCULATED_SDI_MONTHLY (vars : StateVars)
  (baseAmount : spec_float) : string :=
  let rate := rateOf vars "SDI_RATE" in
  currency (Num.div (Num.mul baseAmount rate) (Num.ofZ 100)).

Definition CALCULATED_TOTAL_STATE_DEDUCTIONS (vars : StateVars)
  (baseAmount : spec_float) : string :=
  let stateRate := rateOf vars "INCOME_TAX_RATE" in
  let localRate := rateOf vars "LOCAL_INCOME_TAX" in
  let sdiRate := rateOf vars "SDI_RATE" in
  let total :=
    Num.div
      (Num.mul baseAmount (Num.add (Num.add stateRate localRate) sdiRate))
      (Num.ofZ 100) in
  currency total.

(** The default of the [baseAmount] parameter. *)
Definition defaultBaseAmount : spec_float := Num.ofZ 4000.

Definition CALCULATED_FIELDS
  : list (string * (StateVars -> spec_float -> string)) :=
  [ ("CALCULATED_STATE_TAX_MONTHLY", CALCULATED_STATE_TAX_MONTHLY);
    ("CALCULATED_LOCAL_TAX_MONTHLY", CALCULATED_LOCAL_TAX_MONTHLY);
    ("CALCULATED_SDI_MONTHLY", CALCULATED_SDI_MONTHLY);
    ("CALCULATED_TOTAL_STATE_DEDUCTIONS", CALCULATED_TOTAL_STATE_DEDUCTIONS) ].

(** [CALCULATED_FIELDS[v]] is truthy. *)
Definition isCalculatedField (v : string) : bool :=
  existsb (fun entry => String.eqb (fst entry) v) CALCULATED_FIELDS.

(* ------------------------------------------------------------------ *)
(** ** Variable interpolation *)

(** What [join] inserts for a state variable's value: a number's
    [toString()], Yes or No for a boolean, N/A for [null] and [undefined],
    and [ToString] of anything else, which is the string itself. *)
Definition displayValue (value : JsVal) : string :=
  match value with
  | JNum x => Num.toString x
  | JBool b => if b then "Yes" else "No"
  | JNull | JUndefined => "N/A"
  | _ => ToString value
  end.

(** The [Object.keys(stateVars).forEach] pass. *)
Definition replaceStateVars (stateVars : StateVars) (result : string)
  : string :=
  fold_left
    (fun result key =>
       Str.replaceAll (placeholder key)
         (displayValue (lookup stateVars key)) result)
    (map fst stateVars) result.

(** The [Object.keys(CALCULATED_FIELDS).forEach] pass: each field is
    computed with the default base amount. *)
Definition replaceCalculated (stateVars : StateVars) (result : string)
  : string :=
  fold_left
    (fun result entry =>
       Str.replaceAll (placeholder (fst entry))
         (snd entry stateVars defaultBaseAmount) result)
    CALCULATED_FIELDS result.

(** The metadata pass: the first occurrence of each placeholder. *)
Definition replaceMetadata (contentData : JsVal) (result : string) : string :=
  if truthy contentData && truthy (prop contentData "metadata") then
    let metadata := prop contentData "metadata" in
    let result :=
      Str.replace "{{CHAPTER_TITLE}}"
        (ToString (orVal (prop metadata "title") (JStr ""))) result in
    Str.replace "{{CHAPTER_SUBTITLE}}"
      (ToString (orVal (prop metadata "subtitle") (JStr ""))) result
  else result.

Definition interpolateVariables (template : JsVal) (stateVars : StateVars)
  (contentData : JsVal) : JsVal :=
  match template with
  | JStr s =>
      if negb (truthy template) then orVal template (JStr "")
      else JStr (replaceMetadata contentData
                   (replaceCalculated stateVars
                      (replaceStateVars stateVars s)))
  | _ => orVal template (JStr "")
  end.

(* ------------------------------------------------------------------ *)
(** ** Layout renderers *)

(** [s] between double quotes. *)
Definition q (s : string) : string := dq ++ s ++ dq.

(** [`${interpolateVariables(v, stateVars, null)}`] *)
Definition interp (v : JsVal) (stateVars : StateVars) : string :=
  ToString (interpolateVariables v stateVars JNull).

(** The text a loop body appends to [html], element after element. *)
Fixpoint appendEach (body : JsVal -> Exc string) (items : list JsVal)
  : Exc string :=
  match items with
  | [] => Ok ""
  | x :: rest =>
      piece <- body x;;
      more <- appendEach body rest;;
      Ok (piece ++ more)
  end.

(** [arr.forEach(body)] for a truthy [arr]: only an array has the method. *)
Definition forEach (arr : JsVal) (body : JsVal -> Exc string) : Exc string :=
  match arr with
  | JArr items => appendEach body items
  | _ => Throw
  end.

(** [if (list) { list.forEach(body) }] *)
Definition forEachIfSet (list : JsVal) (body : JsVal -> Exc string)
  : Exc string :=
  if truthy list then forEach list body else Ok "".

Definition objectiveItem (stateVars : StateVars) (obj : JsVal) : Exc string :=
  number <- get obj "number";;
  verb <- get obj "verb";;
  description <- get obj "description";;
  Ok ("  <div class=" ++ q "objective-item" ++ ">" ++ nl ++
      "    <div class=" ++ q "objective-number" ++ ">" ++ ToString number ++
      "</div>" ++ nl ++
      "    <div class=" ++ q "objective-content" ++ ">" ++ nl ++
      "      <div class=" ++ q "objective-verb" ++ ">" ++
      interp verb stateVars ++ "</div>" ++ nl ++
      "      <div class=" ++ q "objective-description" ++ ">" ++
      interp description stateVars ++ "</div>" ++ nl ++
      "    </div>" ++ nl ++
      "  </div>" ++ nl).

Definition generateObjectivesLayout (data : JsVal) (stateVars : StateVars)
  : Exc string :=
  objectives <- get data "objectives";;
  items <- forEachIfSet objectives (objectiveItem stateVars);;
  Ok ("<div class=" ++ q "objectives-expanded" ++ ">" ++ nl ++
      items ++
      "</div>" ++ nl).

Definition vocabCard (stateVars : StateVars) (term : JsVal) : Exc string :=
  name <- get term "term";;
  definition <- get term "definition";;
  Ok ("  <div class=" ++ q "vocab-card" ++ ">" ++ nl ++
      "    <div class=" ++ q "vocab-term" ++ ">" ++
      interp name stateVars ++ "</div>" ++ nl ++
      "    <div class=" ++ q "vocab-definition" ++ ">" ++
      interp definition stateVars ++ "</div>" ++ nl ++
      "  </div>" ++ nl).

Definition generateVocabLayout (data : JsVal) (stateVars : StateVars)
  : Exc string :=
  terms <- get data "terms";;
  items <- forEachIfSet terms (vocabCard stateVars);;
  Ok ("<div class=" ++ q "vocab-container" ++ ">" ++ nl ++
      items ++
      "</div>" ++ nl).

Definition comparisonItem (stateVars : StateVars) (item : JsVal)
  : Exc string :=
  Ok ("      <li>" ++ interp item stateVars ++ "</li>" ++ nl).

Definition comparisonColumn (stateVars : StateVars) (col : JsVal)
  : Exc string :=
  header <- get col "header";;
  items <- get col "items";;
  lis <- forEachIfSet items (comparisonItem stateVars);;
  Ok ("  <div class=" ++ q "comparison-column" ++ ">" ++ nl ++
      "    <div class=" ++ q "comparison-header" ++ ">" ++
      interp header stateVars ++ "</div>" ++ nl ++
      "    <ul class=" ++ q "comparison-list" ++ ">" ++ nl ++
      lis ++
      "    </ul>" ++ nl ++
      "  </div>" ++ nl).

Definition generateComparisonLayout (data : JsVal) (stateVars : StateVars)
  : Exc string :=
  columns <- get data "columns";;
  cols <- forEachIfSet columns (comparisonColumn stateVars);;
  Ok ("<div class=" ++ q "comparison-grid" ++ ">" ++ nl ++
      cols ++
      "</div>" ++ nl).

Definition generateScenarioLayout (data : JsVal) (stateVars : StateVars)
  : Exc string :=
  title <- get data "title";;
  description <- get data "description";;
  highlightBox <- get data "highlightBox";;
  Ok ("<div class=" ++ q "scenario-layout" ++ ">" ++ nl ++
      (if truthy title
       then "  <h2>" ++ interp title stateVars ++ "</h2>" ++ nl
       else "") ++
      (if truthy description
       then "  <p class=" ++ q "scenario-description" ++ ">" ++
            interp description stateVars ++ "</p>" ++ nl
       else "") ++
      (if truthy highlightBox
       then "  <div class=" ++ q "highlight-box" ++ ">" ++ nl ++
            "    <span class=" ++ q "highlight-icon" ++ ">" ++
            ToString (prop highlightBox "icon") ++ "</span>" ++ nl ++
            "    <span class=" ++ q "highlight-text" ++ ">" ++
            interp (prop highlightBox "text") stateVars ++ "</span>" ++ nl ++
            "  </div>" ++ nl
       else "") ++
      "</div>" ++ nl).

Definition takeawayCard (stateVars : StateVars) (item : JsVal) : Exc string :=
  icon <- get item "icon";;
  text <- get item "text";;
  Ok ("  <div class=" ++ q "takeaway-card" ++ ">" ++ nl ++
      "    <div class=" ++ q "takeaway-icon" ++ ">" ++ ToString icon ++
      "</div>" ++ nl ++
      "    <div class=" ++ q "takeaway-text" ++ ">" ++
      interp text stateVars ++ "</div>" ++ nl ++
      "  </div>" ++ nl).

Definition generateTakeawayLayout (data : JsVal) (stateVars : StateVars)
  : Exc string :=
  takeaways <- get data "takeaways";;
  items <- forEachIfSet takeaways (takeawayCard stateVars);;
  Ok ("<div class=" ++ q "takeaway-grid" ++ ">" ++ nl ++
      items ++
      "</div>" ++ nl).

Definition paycheckLine (stateVars : StateVars) (line : JsVal) : Exc string :=
  type <- get line "type";;
  isStateVariable <- get line "isStateVariable";;
  label <- get line "label";;
  amount <- get line "amount";;
  let lineClass := orVal type (JStr "") in
  let isStateVar :=
    if truthy isStateVariable
    then " data-state-variable=" ++ q "true"
    else "" in
  Ok ("  <div class=" ++ dq ++ "paycheck-line " ++ ToString lineClass ++ dq ++
      isStateVar ++ ">" ++ nl ++
      "    <span class=" ++ q "label" ++ ">" ++
      interp label stateVars ++ "</span>" ++ nl ++
      "    <span class=" ++ q "amount" ++ ">" ++
      interp amount stateVars ++ "</span>" ++ nl ++
      "  </div>" ++ nl).

Definition generatePaycheckLayout (data : JsVal) (stateVars : StateVars)
  : Exc string :=
  lines <- get data "lines";;
  items <- forEachIfSet lines (paycheckLine stateVars);;
  Ok ("<div class=" ++ q "paycheck-breakdown" ++ ">" ++ nl ++
      "  <h3>Monthly Paycheck Breakdown</h3>" ++ nl ++
      items ++
      "</div>" ++ nl).

Definition bulletItem (stateVars : StateVars) (item : JsVal) : Exc string :=
  Ok ("    <li>" ++ interp item stateVars ++ "</li>" ++ nl).

Definition generateBulletListLayout (data : JsVal) (stateVars : StateVars)
  : Exc string :=
  items <- get data "items";;
  list <- (if truthy items
           then lis <- forEach items (bulletItem stateVars);;
                Ok ("  <ul>" ++ nl ++ lis ++ "  </ul>" ++ nl)
           else Ok "");;
  Ok ("<div class=" ++ q "bullet-list-full" ++ ">" ++ nl ++
      list ++
      "</div>" ++ nl).

(** The fallback for unknown layouts. *)
Definition generateGenericLayout (data : JsVal) (stateVars : StateVars)
  : Exc string :=
  Ok ("<div class=" ++ q "generic-content" ++ ">" ++ nl ++
      "  <pre>" ++ showOpt (JSON_stringify2 data) ++ "</pre>" ++ nl ++
      "</div>" ++ nl).

(** A [case] label of the [switch]: strict equality with a string. *)
Definition isLayout (layout : JsVal) (name : string) : bool :=
  match layout with
  | JStr s => String.eqb s name
  | _ => false
  end.

Definition generateLayoutContent (content : JsVal) (stateVars : StateVars)
  : Exc string :=
  if negb (truthy content) || negb (truthy (prop content "layout"))
  then Ok ""
  else
    let layout := prop content "layout" in
    let layoutData := orVal (prop content "layoutData") (JObj []) in
    if isLayout layout "objectives-expanded"
    then generateObjectivesLayout layoutData stateVars
    else if isLayout layout "vocab-container"
    then generateVocabLayout layoutData stateVars
    else if isLayout layout "comparison-grid"
    then generateComparisonLayout layoutData stateVars
    else if isLayout layout "scenario-layout"
    then generateScenarioLayout layoutData stateVars
    else if isLayout layout "takeaway-grid"
    then generateTakeawayLayout layoutData stateVars
    else if isLayout layout "paycheck-breakdown"
    then generatePaycheckLayout layoutData stateVars
    else if isLayout layout "bullet-list-full"
    then generateBulletListLayout layoutData stateVars
    else generateGenericLayout layoutData stateVars.

(* ------------------------------------------------------------------ *)
(** ** Content validation *)

Definition isUndefined (v : JsVal) : bool :=
  match v with
  | JUndefined => true
  | _ => false
  end.

(** [Array.isArray(v)] *)
Definition isArray (v : JsVal) : bool :=
  match v with
  | JArr _ => true
  | _ => false
  end.

(** The [errors] the metadata check pushes. *)
Definition checkMetadata (data : JsVal) : Exc (list string) :=
  metadata <- get data "metadata";;
  if negb (truthy metadata) then Ok ["Missing metadata object"]
  else
    Ok ((if negb (truthy (prop metadata "lChapter"))
         then ["Missing metadata.lChapter"] else []) ++
        (if negb (truthy (prop metadata "title"))
         then ["Missing metadata.title"] else []) ++
        (if isUndefined (prop metadata "hasStateVariables")
         then ["Missing metadata.hasStateVariables"] else []))%list.

(** [`Slide ${index}: missing ${what}`] *)
Definition slideWarning (index : nat) (what : string) : string :=
  "Slide " ++ Num.digitsOfZ (Z.of_nat index) ++ ": missing " ++ what.

(** The [warnings] the [data.slides.forEach] loop pushes, from [index] on. *)
Fixpoint checkSlideItems (index : nat) (slides : list JsVal)
  : Exc (list string) :=
  match slides with
  | [] => Ok []
  | slide :: rest =>
      number <- get slide "number";;
      type <- get slide "type";;
      content <- get slide "content";;
      more <- checkSlideItems (S index) rest;;
      Ok ((if negb (truthy number)
           then [slideWarning index "number"] else []) ++
          (if negb (truthy type)
           then [slideWarning index "type"] else []) ++
          (if negb (truthy content)
           then [slideWarning index "content"] else []) ++
          more)%list
  end.

(** The [errors] and the [warnings] the slides check pushes. *)
Definition checkSlides (data : JsVal) : Exc (list string * list string) :=
  slides <- get data "slides";;
  if negb (truthy slides) || negb (isArray slides)
  then Ok (["Missing or invalid slides array"], [])
  else
    match slides with
    | JArr items =>
        warnings <- checkSlideItems 0 items;;
        Ok ([], warnings)
    | _ => Ok ([], [])
    end.

(** [set.add(x)] on a set of strings kept in insertion order. *)
Definition setAdd (set : list string) (x : string) : list string :=
  if existsb (String.eqb x) set then set else (set ++ [x])%list.

(** [new Set(v)]: the elements of an array or the characters of a string;
    no other JSON value is iterable. *)
Definition newSet (v : JsVal) : Exc (list JsVal) :=
  match v with
  | JArr items => Ok items
  | JStr s => Ok (map JStr (Str.chars s))
  | _ => Throw
  end.

(** [set.has(v)] for a string [v]. *)
Definition setHas (set : list JsVal) (v : string) : bool :=
  existsb (fun x => match x with
                    | JStr s => String.eqb s v
                    | _ => false
                    end) set.

(** [`Variable {{${v}}} used but not declared in stateVariablesUsed`] *)
Definition undeclaredWarning (v : string) : string :=
  "Variable {{" ++ v ++ "}} used but not declared in stateVariablesUsed".

(** The [warnings] the state-variable check pushes. *)
Definition checkStateVariables (data : JsVal) : Exc (list string) :=
  metadata <- get data "metadata";;
  if truthy metadata && truthy (prop metadata "hasStateVariables") then
    let contentString := showOpt (JSON_stringify data) in
    let foundVars := fold_left setAdd (placeholderNames contentString) [] in
    declaredVars <-
      newSet (orVal (prop metadata "stateVariablesUsed") (JArr []));;
    Ok ((match foundVars with
         | [] => ["hasStateVariables is true but no {{PLACEHOLDERS}} found"]
         | _ => []
         end) ++
        flat_map
          (fun v =>
             if negb (setHas declaredVars v) && negb (isCalculatedField v)
             then [undeclaredWarning v]
             else [])
          foundVars)%list
  else Ok [].

(** What the validation found. *)
Record Findings := mkFindings {
  errors : list string;
  warnings : list string
}.

Definition isNil {A : Type} (l : list A) : bool :=
  match l with
  | [] => true
  | _ => false
  end.

(** The property reads of the success message: [data.slides.length] and
    [data.metadata.hasStateVariables]. *)
Definition printResults (data : JsVal) (found : Findings) : Exc unit :=
  if isNil (errors found) && isNil (warnings found) then
    slides <- get data "slides";;
    _ <- get slides "length";;
    metadata <- get data "metadata";;
    _ <- get metadata "hasStateVariables";;
    Ok tt
  else Ok tt.

(** The body of the [try] once the file is parsed. *)
Definition validateDocument (data : JsVal) : Exc Findings :=
  e1 <- checkMetadata data;;
  sl <- checkSlides data;;
  w2 <- checkStateVariables data;;
  let found := {| errors := (e1 ++ fst sl)%list;
                  warnings := (snd sl ++ w2)%list |} in
  _ <- printResults data found;;
  Ok found.

(** [validateContentJSON(filePath)]: [loaded] is what
    [JSON.parse(fs.readFileSync(filePath, 'utf8'))] gave.  The [catch]
    turns any exception into [false]. *)
Definition validateContentJSON (loaded : Exc JsVal) : bool :=
  match (data <- loaded;; validateDocument data) with
  | Ok found => isNil (errors found)
  | Throw => false
  end.

(* ------------------------------------------------------------------ *)
(** ** The extractor's state-variable detection *)

(** Known state variables that might appear in content. *)
Definition STATE_VARIABLES : list string :=
  [ "STATE_NAME"; "STATE_GRANT_PROGRAM"; "STATE_TUITION_PUBLIC";
    "STATE_TUITION_COMMUNITY";
    "MIN_WAGE"; "INCOME_TAX_RATE"; "SALES_TAX"; "LOCAL_SALES_TAX_MAX";
    "COMBINED_SALES_TAX_MAX";
    "PROPERTY_TAX_COUNTY_RATE"; "ASSESSMENT_PERCENTAGE";
    "HOMESTEAD_EXEMPTION";
    "MEDIAN_HOME_PRICE"; "MEDIAN_RENT"; "AVG_MORTGAGE_RATE_30YR";
    "REGISTRATION_INITIAL"; "REGISTRATION_ANNUAL"; "GAS_PRICE_CURRENT";
    "INSURANCE_AVG_TEEN";
    "AVG_AUTO_LOAN_RATE_NEW"; "AVG_AUTO_LOAN_RATE_USED";
    "UNEMPLOYMENT_RATE"; "MAJOR_INDUSTRIES"; "MAJOR_CITY"; "MAJOR_CITY_1";
    "MAJOR_CITY_2";
    "AVG_MONTHLY_FEE"; "AVG_OVERDRAFT_FEE"; "LOCAL_CREDIT_UNION_NAME";
    "DMV_URL"; "TAX_AUTHORITY_URL"; "LABOR_DEPARTMENT_URL";
    "CONSUMER_PROTECTION_URL" ].

(** [match.replace(/[{}]/g, '')] *)
Fixpoint removeBraces (s : string) : string :=
  match s with
  | EmptyString => EmptyString
  | String c s' =>
      if Ascii.eqb c "{" || Ascii.eqb c "}" then removeBraces s'
      else String c (removeBraces s')
  end.

(** [contentStr.match(/\{\{([A-Z_]+)\}\}/g)]: the matched texts; the empty
    list stands for [null] too. *)
Definition matchPlaceholders (contentStr : string) : list string :=
  map placeholder (placeholderNames contentStr).

(** [[...new Set(found)]]: the first occurrence of each name. *)
Fixpoint dedupe (found : list string) : list string :=
  match found with
  | [] => []
  | x :: rest =>
      x :: filter (fun y => negb (String.eqb x y)) (dedupe rest)
  end.

(** [detectStateVariables] from the serialized content on. *)
Definition detectIn (contentStr : string) : list string :=
  let found :=
    filter (fun varName =>
              Str.includes contentStr (placeholder varName) ||
              Str.includes contentStr varName)
           STATE_VARIABLES in
  let found :=
    fold_left
      (fun found m =>
         let varName := removeBraces m in
         if negb (existsb (String.eqb varName) found)
         then (found ++ [varName])%list
         else found)
      (matchPlaceholders contentStr) found in
  dedupe found.

(** [detectStateVariables(content)]: [JSON.stringify] of [undefined] is
    [undefined], which has no [includes]. *)
Definition detectStateVariables (content : JsVal) : Exc (list string) :=
  match JSON_stringify content with
  | Some contentStr => Ok (detectIn contentStr)
  | None => Throw
  end.

(** The metadata object [convertHtmlToJson] builds. *)
Definition metadataOf (lChapter mainTitle subtitle : string)
  (totalSlides : nat) (hasStateVariables : bool)
  (stateVariablesUsed : list string) : JsVal :=
  JObj [ ("lChapter", JStr lChapter);
         ("title", JStr mainTitle);
         ("subtitle", JStr subtitle);
         ("totalSlides", JNum (Num.ofZ (Z.of_nat totalSlides)));
         ("hasStateVariables", JBool hasStateVariables);
         ("stateVariablesUsed", JArr (map JStr stateVariablesUsed)) ].

(** The document [convertHtmlToJson] builds. *)
Definition jsonOutputOf (lChapter mainTitle subtitle : string)
  (slides : list JsVal) (hasStateVariables : bool)
  (stateVariablesUsed : list string) : JsVal :=
  JObj [ ("metadata",
          metadataOf lChapter mainTitle subtitle (List.length slides)
            hasStateVariables stateVariablesUsed);
         ("slides", JArr slides) ].

(** [convertHtmlToJson] from the point where the document tree has been
    read: [lChapter], [mainTitle], [subtitle] and [slides] are what the DOM
    queries and the slide parsers returned. *)
Definition convertHtmlToJson (lChapter mainTitle subtitle : string)
  (slides : list JsVal) : Exc JsVal :=
  let jsonOutput := jsonOutputOf lChapter mainTitle subtitle slides false [] in
  stateVars <- detectStateVariables jsonOutput;;
  Ok (jsonOutputOf lChapter mainTitle subtitle slides
        (negb (isNil stateVars)) stateVars).

(* ------------------------------------------------------------------ *)
(** ** Slide and deck assembly *)

Definition generateSlideHTML (slide : JsVal) (stateVars : StateVars)
  : Exc string :=
  type <- get slide "type";;
  headerColor <- get slide "headerColor";;
  content <- get slide "content";;
  let slideClass := "slide-" ++ ToString type in
  let headerClass := orVal headerColor (JStr "purple") in
  let header :=
    if truthy content && truthy (prop content "headerTitle")
    then "  <div class=" ++ dq ++ "slide-header " ++ ToString headerClass ++
         dq ++ ">" ++ nl ++
         "    <h1>" ++ interp (prop content "headerTitle") stateVars ++
         "</h1>" ++ nl ++
         "  </div>" ++ nl
    else "" in
  body <- generateLayoutContent content stateVars;;
  number <- get slide "number";;
  Ok ("<div class=" ++ dq ++ "slide " ++ slideClass ++ dq ++ ">" ++ nl ++
      header ++
      "  <div class=" ++ q "slide-body" ++ ">" ++ nl ++
      body ++
      "  </div>" ++ nl ++
      "  <div class=" ++ q "slide-footer" ++ ">" ++ nl ++
      "    <span class=" ++ q "slide-number" ++ ">" ++ ToString number ++
      "</span>" ++ nl ++
      "  </div>" ++ nl ++
      "</div>" ++ nl ++ nl).

(** [contentData.slides.forEach(slide => slidesHTML += generateSlideHTML(...))],
    after [contentData.slides.length] has been read for the log. *)
Definition generateSlides (contentData : JsVal) (stateVars : StateVars)
  : Exc string :=
  slides <- get contentData "slides";;
  _ <- get slides "length";;
  forEach slides (fun slide => generateSlideHTML slide stateVars).

(** [value.replace(...)] is a method of strings only. *)
Definition asString (value : JsVal) : Exc string :=
  match value with
  | JStr s => Ok s
  | _ => Throw
  end.

(** [`chapter-${mapping.stateChapter}-slides.html`] *)
Definition outputFileName (mapping : ChapterMapping) : string :=
  "chapter-" ++ showOpt (stateChapter mapping) ++ "-slides.html".

(** [generateSlideDeck] from the point where the four files have been
    read: [template], [contentData], [stateVars] and [mappingContent] are
    what the loaders returned.  The result is the name of the output file
    and its text. *)
Definition generateSlideDeck (template : string) (contentData : JsVal)
  (stateVars : StateVars) (mappingContent lChapter : string)
  : Exc (string * string) :=
  let mapping := parseChapterMapping mappingContent lChapter in
  slidesHTML <- generateSlides contentData stateVars;;
  let finalHTML := Str.replace "<!-- SLIDES_CONTENT -->" slidesHTML template in
  finalHTML <-
    asString (interpolateVariables (JStr finalHTML) stateVars contentData);;
  let finalHTML :=
    Str.replace "{{STATE_CHAPTER}}" (showOpt (stateChapter mapping))
      finalHTML in
  Ok (outputFileName mapping, finalHTML).

(* ------------------------------------------------------------------ *)
(** ** The extractor's text helpers *)

(** [text.replace(/\s+/g, ' ')]: every run of white space becomes one
    space.  [inRun] tells that the code unit before was white space. *)
Fixpoint collapseSpaces (inRun : bool) (s : string) : string :=
  match s with
  | EmptyString => EmptyString
  | String c s' =>
      if Str.isWhiteSpace c
      then if inRun then collapseSpaces true s'
           else String " " (collapseSpaces true s')
      else String c (collapseSpaces false s')
  end.

(** [cleanText(text)]: [text] is a string, or [None] for the [undefined]
    and [null] that [element?.textContent] gives. *)
Definition cleanText (text : option string) : string :=
  match text with
  | Some s =>
      if Str.isEmpty s then EmptyString
      else Str.trim (collapseSpaces false s)
  | None => EmptyString
  end.

(** [extractInnerHTML(element)]: [innerHTML] is the element's markup,
    [None] when there is no element. *)
Definition extractInnerHTML (innerHTML : option string) : string :=
  match innerHTML with
  | Some s => Str.trim (collapseSpaces false s)
  | None => EmptyString
  end.




(* ------------------------------------------------------------------ *)
(** ** The extractor's batch loop *)

Module Batch.

(** [s.endsWith(suffix)] *)
Fixpoint endsWith (s suffix : string) : bool :=
  String.eqb s suffix ||
  match s with
  | EmptyString => false
  | String _ s' => endsWith s' suffix
  end.

(** [names.sort()]: ascending by code units. *)
Fixpoint insertSorted (name : string) (sorted : list string) : list string :=
  match sorted with
  | [] => [name]
  | x :: rest =>
      if String.leb name x then name :: sorted
      else x :: insertSorted name rest
  end.

Definition sort (names : list string) : list string :=
  fold_right insertSorted [] names.

(** Skip L-01 and L-03 since they already exist. *)
Definition skipExisting : list string := ["L-01"; "L-03"].

(** [fs.readdirSync(CONFIG.sourceDir).filter(...).sort()] *)
Definition htmlFiles (dirEntries : list string) : list string :=
  sort (filter (fun f => endsWith f ".html" && Str.startsWith f "L-")
               dirEntries).

(** Group 1 of [htmlFile.match(/^(L-\d+)/)]. *)
Definition fileChapter (htmlFile : string) : option string :=
  if Str.startsWith htmlFile "L-" &&
     negb (Str.isEmpty (fst (Num.spanDigits (Str.drop 2 htmlFile))))
  then Some ("L-" ++ fst (Num.spanDigits (Str.drop 2 htmlFile)))
  else None.

(** The three counters of the loop. *)
Record Counters := mkCounters {
  processed : nat;
  skipped : nat;
  errors : nat
}.

(** [options.chapter && options.chapter !== lChapter]: [chapter] is the
    option, [None] when it is not set. *)
Definition otherChapterWanted (chapter : option string) (lChapter : string)
  : bool :=
  match chapter with
  | Some wanted =>
      negb (Str.isEmpty wanted) && negb (String.eqb wanted lChapter)
  | None => false
  end.

(** One turn of the [for] loop.  [convert htmlFile] is the outcome of the
    [try] block: converting the file and writing the result. *)
Definition step (chapter : option string) (convert : string -> Exc unit)
  (counters : Counters) (htmlFile : string) : Counters :=
  match fileChapter htmlFile with
  | None => counters
  | Some lChapter =>
      if otherChapterWanted chapter lChapter then counters
      else if existsb (String.eqb lChapter) skipExisting
      then {| processed := processed counters;
              skipped := S (skipped counters);
              errors := errors counters |}
      else match convert htmlFile with
           | Ok _ => {| processed := S (processed counters);
                        skipped := skipped counters;
                        errors := errors counters |}
           | Throw => {| processed := processed counters;
                         skipped := skipped counters;
                         errors := S (errors counters) |}
           end
  end.

(** [processAllFiles(options)]: [dirEntries] is what the source directory
    lists; the result is the counters the summary prints. *)
Definition processAllFiles (dirEntries : list string)
  (chapter : option string) (convert : string -> Exc unit) : Counters :=
  fold_left (step chapter convert) (htmlFiles dirEntries)
            {| processed := 0; skipped := 0; errors := 0 |}.

End Batch.

(* ------------------------------------------------------------------ *)
(** ** Vocabulary of the statements *)

(** A line the parser keeps as a table row. *)
Definition isTableRow (line : string) : bool :=
  Str.startsWith (Str.trim line) "|".

(** The first cell of a row: [columns[0]]. *)
Definition firstCell (row : string) : option string :=
  nth_error (rowColumns row) 0.

(** The mapping read off a row: its second cell, and its third cell or the
    placeholder title. *)
Definition mappingOfRow (row : string) : ChapterMapping :=
  {| stateChapter := nth_error (rowColumns row) 1;
     title := orString (nth_error (rowColumns row) 2) "Unknown Chapter" |}.

(** The names interpolation replaces: the state-variable keys, the
    calculated fields and the two metadata placeholders. *)
Definition replaceableNames (stateVars : StateVars) : list string :=
  (map fst stateVars ++ map fst CALCULATED_FIELDS ++
   ["CHAPTER_TITLE"; "CHAPTER_SUBTITLE"])%list.

(** A text that holds the placeholder of none of them. *)
Definition fullyResolved (text : string) (stateVars : StateVars) : Prop :=
  Forall (fun name => Str.includes text (placeholder name) = false)
         (replaceableNames stateVars).

(** The layout names the [switch] of [generateLayoutContent] lists. *)
Definition knownLayouts : list string :=
  [ "objectives-expanded"; "vocab-container"; "comparison-grid";
    "scenario-layout"; "takeaway-grid"; "paycheck-breakdown";
    "bullet-list-full" ].

(** The generic fragment around a preformatted [text]. *)
Definition genericFragment (text : string) : string :=
  "<div class=" ++ q "generic-content" ++ ">" ++ nl ++
  "  <pre>" ++ text ++ "</pre>" ++ nl ++
  "</div>" ++ nl.

(** The objectives container with no card in it. *)
Definition emptyObjectives : string :=
  "<div class=" ++ q "objectives-expanded" ++ ">" ++ nl ++ "</div>" ++ nl.

(** No hard error: [metadata], [metadata.lChapter] and [metadata.title]
    are present, [metadata.hasStateVariables] is defined and [slides] is an
    array. *)
Definition noHardError (data : JsVal) : bool :=
  let metadata := prop data "metadata" in
  truthy metadata &&
  truthy (prop metadata "lChapter") &&
  truthy (prop metadata "title") &&
  negb (isUndefined (prop metadata "hasStateVariables")) &&
  isArray (prop data "slides").

(** A value [new Set] accepts. *)
Definition isIterable (v : JsVal) : bool :=
  match v with
  | JArr _ | JStr _ => true
  | _ => false
  end.

(** No entry of the slides array is [null]: the per-slide reads raise no
    exception. *)
Definition slidesReadable (data : JsVal) : bool :=
  match prop data "slides" with
  | JArr items => forallb (fun slide => negb (isNullish slide)) items
  | _ => true
  end.

(** When [hasStateVariables] is truthy, a truthy [stateVariablesUsed] is an
    array or a string: [new Set] raises no exception. *)
Definition declaredReadable (data : JsVal) : bool :=
  let metadata := prop data "metadata" in
  if truthy metadata && truthy (prop metadata "hasStateVariables")
  then isIterable (orVal (prop metadata "stateVariablesUsed") (JArr []))
  else true.

(** The checks run to their end without an exception. *)
Definition checksComplete (data : JsVal) : bool :=
  negb (isNullish data) && slidesReadable data && declaredReadable data.

(** A name of the placeholder pattern: one or more of [[A-Z_]]. *)
Fixpoint allNameChars (s : string) : bool :=
  match s with
  | EmptyString => true
  | String c s' => isNameChar c && allNameChars s'
  end.

Definition isName (v : string) : bool :=
  negb (Str.isEmpty v) && allNameChars v.

(** [v] is the name of a [{{UPPER_SNAKE_CASE}}] token found in the text. *)
Definition isToken (contentStr v : string) : Prop :=
  isName v = true /\ Str.includes contentStr (placeholder v) = true.

(** The three rates and the calculated field of each. *)
Definition rateFields : list (string * (StateVars -> spec_float -> string)) :=
  [ ("INCOME_TAX_RATE", CALCULATED_STATE_TAX_MONTHLY);
    ("LOCAL_INCOME_TAX", CALCULATED_LOCAL_TAX_MONTHLY);
    ("SDI_RATE", CALCULATED_SDI_MONTHLY) ].









(* ------------------------------------------------------------------ *)
(** ** Sample inputs *)

Definition slideOne : JsVal :=
  JObj [ ("number", JNum (Num.ofZ 1));
         ("type", JStr "title");
         ("content", JObj [ ("title", JStr "Income and Taxes") ]) ].

Definition documentWith (metadata : list (string * JsVal))
  (slides : JsVal) : JsVal :=
  JObj [ ("metadata", JObj metadata); ("slides", slides) ].

(** All required fields, no slide issue. *)
Definition completeDocument : JsVal :=
  documentWith [ ("lChapter", JStr "L-03"); ("title", JStr "Income and Taxes");
                 ("hasStateVariables", JBool false) ]
               (JArr [slideOne]).

(** No [metadata.title]. *)
Definition untitledDocument : JsVal :=
  documentWith [ ("lChapter", JStr "L-03");
                 ("hasStateVariables", JBool false) ]
               (JArr [slideOne]).


(** A [null] among the slides. *)
Definition nullSlideDocument : JsVal :=
  documentWith [ ("lChapter", JStr "L-03"); ("title", JStr "Income and Taxes");
                 ("hasStateVariables", JBool false) ]
               (JArr [slideOne; JNull]).




(** A mapping text with two rows for one chapter. *)
Definition twoRows : string :=
  "| L-03 | 1.3 | Income and Taxes |" ++ nl ++ "| L-03 | 9.9 | Shadowed |".

(** A mapping text as the state files have it. *)
Definition sampleMapping : string :=
  "# Oklahoma" ++ nl ++
  "| L-Chapter | Chapter | Title |" ++ nl ++
  "|---|---|---|" ++ nl ++
  "| L-03 | 1.3 | Income and Taxes |" ++ nl ++
  "| L-04 | 1.4 | Budgeting |".

(** A state-variable set. *)
Definition oklahoma : StateVars :=
  [ ("STATE_NAME", JStr "Oklahoma");
    ("INCOME_TAX_RATE", JStr "4.75");
    ("HAS_STATE_TAX", JBool true) ].

(** A content document with chapter metadata. *)
Definition lesson : JsVal :=
  JObj [ ("metadata", JObj [ ("title", JStr "Income and Taxes");
                             ("subtitle", JStr "Where the money goes") ]) ].

(** A content value with a layout name the renderer does not know. *)
Definition mysteryContent : JsVal :=
  JObj [ ("layout", JStr "timeline");
         ("layoutData", JObj [ ("steps", JArr [JStr "earn"; JStr "save"]) ]) ].

(** A content value with no layout name. *)
Definition noLayoutContent : JsVal :=
  JObj [ ("layoutData", JObj [ ("note", JStr "draft") ]) ].

(* ------------------------------------------------------------------ *)
(** ** Further vocabulary *)

(** A text with no opening brace in it. *)
Fixpoint noOpenBrace (s : string) : bool :=
  match s with
  | EmptyString => true
  | String c s' => negb (Ascii.eqb c "{") && noOpenBrace s'
  end.

(** A text with no dollar sign in it. *)
Fixpoint noDollar (s : string) : bool :=
  match s with
  | EmptyString => true
  | String c s' => negb (Ascii.eqb c "$") && noDollar s'
  end.


(** The code ran to its end without an exception. *)
Definition succeeds {A : Type} (r : Exc A) : bool :=
  match r with
  | Ok _ => true
  | Throw => false
  end.




(** The markup of a slide with no header and an empty body. *)
Definition plainSlide (type number : JsVal) : string :=
  "<div class=" ++ dq ++ "slide slide-" ++ ToString type ++ dq ++ ">" ++ nl ++
  "  <div class=" ++ q "slide-body" ++ ">" ++ nl ++
  "  </div>" ++ nl ++
  "  <div class=" ++ q "slide-footer" ++ ">" ++ nl ++
  "    <span class=" ++ q "slide-number" ++ ">" ++ ToString number ++
  "</span>" ++ nl ++
  "  </div>" ++ nl ++
  "</div>" ++ nl ++ nl.


(** A slide with a title and no layout, as the extractor writes title
    slides. *)
Definition titleSlide : JsVal :=
  JObj [ ("number", JNum (Num.ofZ 1));
         ("type", JStr "title");
         ("content", JObj [ ("title", JStr "Income and Taxes");
                            ("subtitle", JStr "Chapter 1.3") ]) ].

(** A vocabulary slide. *)
Definition vocabSlide : JsVal :=
  JObj [ ("number", JNum (Num.ofZ 2));
         ("type", JStr "content");
         ("headerColor", JStr "teal");
         ("content",
          JObj [ ("headerTitle", JStr "Words in {{STATE_NAME}}");
                 ("layout", JStr "vocab-container");
                 ("layoutData",
                  JObj [ ("terms",
                          JArr [ JObj [ ("term", JStr "Gross pay");
                                        ("definition",
                                         JStr "Pay before deductions") ] ])
                       ]) ]) ].


(** A slide with a number, a type and a content, none of them falsy. *)
Definition completeSlide (slide : JsVal) : bool :=
  truthy (prop slide "number") && truthy (prop slide "type") &&
  truthy (prop slide "content").

(** The three fields the slide check looks at. *)
Definition slideFields : list string := ["number"; "type"; "content"].

(** A document whose second slide is numbered 0 and has no content. *)
Definition zeroNumberedDocument : JsVal :=
  documentWith [ ("lChapter", JStr "L-03"); ("title", JStr "Income and Taxes");
                 ("hasStateVariables", JBool false) ]
               (JArr [ slideOne;
                       JObj [ ("number", JNum (Num.ofZ 0));
                              ("type", JStr "hook") ] ]).

(** A document that declares one of the two state variables it uses, and
    uses a calculated field. *)
Definition flaggedDocument : JsVal :=
  documentWith
    [ ("lChapter", JStr "L-03"); ("title", JStr "Income and Taxes");
      ("hasStateVariables", JBool true);
      ("stateVariablesUsed", JArr [JStr "STATE_NAME"]) ]
    (JArr [ JObj [ ("number", JNum (Num.ofZ 1));
                   ("type", JStr "content");
                   ("content",
                    JObj [ ("headerTitle",
                            JStr ("{{STATE_NAME}} pays {{MIN_WAGE}}, " ++
                                  "less {{CALCULATED_SDI_MONTHLY}}"))
                         ]) ] ]).

(** A text [cleanText] leaves as it is: no white space at either end, and
    inside only single spaces. [afterSpace] tells that the code unit before
    was a space, or that the text starts here. *)
Fixpoint cleanFrom (afterSpace : bool) (s : string) : bool :=
  match s with
  | EmptyString => negb afterSpace
  | String c s' =>
      if Str.isWhiteSpace c
      then Ascii.eqb c " " && negb afterSpace && cleanFrom true s'
      else cleanFrom false s'
  end.

Definition isClean (s : string) : bool :=
  Str.isEmpty s || cleanFrom true s.

(** The html file [f] is one the batch loop takes up: its name starts with
    a chapter id, and no other chapter is asked for. *)
Definition selected (chapter : option string) (f : string) : bool :=
  match Batch.fileChapter f with
  | Some lChapter => negb (Batch.otherChapterWanted chapter lChapter)
  | None => false
  end.

(** The chapter of [f] is on the skip list. *)
Definition isSkipped (f : string) : bool :=
  match Batch.fileChapter f with
  | Some lChapter => existsb (String.eqb lChapter) Batch.skipExisting
  | None => false
  end.

(** A directory entry the batch loop lists. *)
Definition isChapterFile (f : string) : bool :=
  Batch.endsWith f ".html" && Str.startsWith f "L-".

(** How many entries satisfy [p]. *)
Definition count (p : string -> bool) (entries : list string) : nat :=
  List.length (filter p entries).

(** A source directory. *)
Definition sourceDir : list string :=
  [ "L-03-income.html"; "notes.txt"; "L-02-budget.html"; "L-10-credit.html";
    "L-01-intro.html"; "index.html" ].

(** A conversion that fails on the credit chapter. *)
Definition convertSample (f : string) : Exc unit :=
  if String.eqb f "L-10-credit.html" then Throw else Ok tt.

(** Like [cleanFrom], without the condition on the end of the text. *)
Fixpoint spaced (afterSpace : bool) (s : string) : bool :=
  match s with
  | EmptyString => true
  | String c s' =>
      if Str.isWhiteSpace c
      then Ascii.eqb c " " && negb afterSpace && spaced true s'
      else spaced false s'
  end.

(** The files the batch loop converts, those whose conversion fails, and
    those it passes over because their chapter is on the skip list. *)
Definition isConverted (chapter : option string)
  (convert : string -> Exc unit) (f : string) : bool :=
  selected chapter f && negb (isSkipped f) && succeeds (convert f).

Definition isFailed (chapter : option string)
  (convert : string -> Exc unit) (f : string) : bool :=
  selected chapter f && negb (isSkipped f) && negb (succeeds (convert f)).

Definition isPassedOver (chapter : option string) (f : string) : bool :=
  selected chapter f && isSkipped f.

(** A text that is empty or starts with a code unit that is not white
    space. *)
Definition headOk (s : string) : bool :=
  match s with
  | EmptyString => true
  | String c _ => negb (Str.isWhiteSpace c)
  end.

(** A table cell as the parser keeps it: not empty, no white space at
    either end. *)
Definition isCell (s : string) : Prop := s <> "" /\ Str.trim s = s.

(** A deck of one title slide. *)
Definition titleDeck : JsVal :=
  documentWith [ ("lChapter", JStr "L-03"); ("title", JStr "Income and Taxes");
                 ("hasStateVariables", JBool false) ]
               (JArr [titleSlide]).

(** A template with a chapter label and the slides marker. *)
Definition smallTemplate : string :=
  "<h1>Chapter {{STATE_CHAPTER}}</h1><!-- SLIDES_CONTENT --><p>End</p>".

(** State data whose income tax rate is no number. *)
Definition unreadableRate : StateVars :=
  [ ("STATE_NAME", JStr "Texas"); ("INCOME_TAX_RATE", JStr "none") ].
(* ================================================================== *)
(** * Properties *)

(* ------------------------------------------------------------------ *)
(** ** Strings: occurrences, splitting and replacing *)

Section StringFacts.

Lemma startsWith_nil (s : string) : Str.startsWith s "" = true.
Proof. destruct s; reflexivity. Qed.

Lemma startsWith_app (p r : string) : Str.startsWith (p ++ r) p = true.
Proof.
  unfold Str.startsWith.
  induction p as [|c p IH]; simpl.
  - destruct r; reflexivity.
  - destruct (ascii_dec c c) as [_|ne]; [exact IH | contradiction].
Qed.

Lemma startsWith_inv (s p : string) :
  Str.startsWith s p = true -> exists r, s = p ++ r.
Proof.
  unfold Str.startsWith.
  revert s.
  induction p as [|c p IH]; intros s H.
  - exists s. reflexivity.
  - destruct s as [|d s]; simpl in H; [discriminate|].
    destruct (ascii_dec c d) as [e|_]; [|discriminate].
    destruct (IH s H) as [r Hr].
    exists r. simpl. now rewrite e, Hr.
Qed.

Lemma append_assoc (a b c : string) : (a ++ b) ++ c = a ++ b ++ c.
Proof. induction a as [|x a IH]; simpl; [reflexivity|now rewrite IH]. Qed.

Lemma append_nil_r (a : string) : a ++ "" = a.
Proof. induction a as [|x a IH]; simpl; [reflexivity|now rewrite IH]. Qed.

Lemma length_append (a b : string) :
  String.length (a ++ b) = String.length a + String.length b.
Proof. induction a as [|x a IH]; simpl; [reflexivity|now rewrite IH]. Qed.

(** [includes] holds exactly of the strings that contain the text. *)
Lemma includes_iff (s sub : string) :
  Str.includes s sub = true <-> exists pre post, s = pre ++ sub ++ post.
Proof.
  split.
  - induction s as [|c s IH]; cbn [Str.includes]; intros H.
    + apply orb_true_iff in H as [H|H]; [|discriminate].
      apply startsWith_inv in H as [r Hr]. now exists "", r.
    + apply orb_true_iff in H as [H|H].
      * apply startsWith_inv in H as [r Hr]. now exists "", r.
      * destruct (IH H) as (pre & post & E).
        exists (String c pre), post. simpl. now rewrite E.
  - intros (pre & post & E). subst s.
    induction pre as [|c pre IH].
    + change ("" ++ sub ++ post) with (sub ++ post).
      destruct (sub ++ post) eqn:E; cbn [Str.includes];
        rewrite <- E, startsWith_app; reflexivity.
    + change (String c pre ++ sub ++ post)
        with (String c (pre ++ sub ++ post)).
      cbn [Str.includes]. rewrite IH. apply orb_true_r.
Qed.

Lemma includes_cons_false (c : ascii) (s sub : string) :
  Str.includes (String c s) sub = false ->
  Str.startsWith (String c s) sub = false /\ Str.includes s sub = false.
Proof. cbn [Str.includes]. intros H. now apply orb_false_iff in H. Qed.

(** Splitting at a text that does not occur gives the string itself. *)
Lemma split_go_absent (sep s : string) :
  Str.includes s sep = false -> Str.split_go sep 0 s = (s, []).
Proof.
  induction s as [|c s IH]; intros H.
  - reflexivity.
  - apply includes_cons_false in H as [H1 H2].
    cbn [Str.split_go]. rewrite H1, (IH H2). reflexivity.
Qed.

Lemma split_absent (sep s : string) :
  Str.includes s sep = false -> Str.split sep s = [s].
Proof.
  intros H. unfold Str.split.
  destruct sep as [|c sep].
  - destruct s; discriminate.
  - now rewrite (split_go_absent _ _ H).
Qed.

Lemma replaceAll_absent (pat by_ s : string) :
  Str.includes s pat = false -> Str.replaceAll pat by_ s = s.
Proof.
  intros H. unfold Str.replaceAll. now rewrite (split_absent _ _ H).
Qed.

Lemma cut_absent (pat s : string) :
  Str.includes s pat = false -> Str.cut pat s = None.
Proof.
  induction s as [|c s IH]; intros H.
  - cbn [Str.includes] in H. apply orb_false_iff in H as [H _].
    cbn [Str.cut]. now rewrite H.
  - apply includes_cons_false in H as [H1 H2].
    cbn [Str.cut]. rewrite H1, (IH H2). reflexivity.
Qed.

Lemma replace_absent (pat repl s : string) :
  Str.includes s pat = false -> Str.replace pat repl s = s.
Proof.
  intros H. unfold Str.replace. now rewrite (cut_absent _ _ H).
Qed.

(** A text at the very start is the first occurrence. *)
Lemma cut_prefix (pat rest : string) :
  Str.cut pat (pat ++ rest) = Some ("", rest).
Proof.
  assert (D : forall p r, Str.drop (String.length p) (p ++ r) = r).
  { induction p as [|c p IH]; intros r; simpl; [now destruct r | apply IH]. }
  destruct (pat ++ rest) eqn:E; cbn [Str.cut];
    rewrite <- E, startsWith_app, D; reflexivity.
Qed.

End StringFacts.

(* ------------------------------------------------------------------ *)
(** ** Chapter mapping resolver *)

Section ChapterMapping.

Lemma tableRows_filter (md : string) :
  tableRows md = filter isTableRow (mdLines md).
Proof. reflexivity. Qed.

Lemma strictEqString_true (a : option string) (s : string) :
  strictEqString a s = true <-> a = Some s.
Proof.
  destruct a as [x|]; simpl.
  - rewrite String.eqb_eq. split; congruence.
  - split; discriminate.
Qed.

Lemma strictEqString_false (a : option string) (s : string) :
  a <> Some s -> strictEqString a s = false.
Proof.
  intros H. destruct (strictEqString a s) eqn:E; [|reflexivity].
  apply strictEqString_true in E. contradiction.
Qed.

(** Rows that do not match are passed over. *)
Lemma scanRows_skip (lChapter : string) (before rest : list string) :
  Forall (fun r => firstCell r <> Some lChapter) before ->
  scanRows (before ++ rest)%list lChapter = scanRows rest lChapter.
Proof.
  induction 1 as [|r before Hr _ IH]; [reflexivity|].
  cbn [app scanRows]. cbv zeta.
  unfold firstCell in Hr.
  now rewrite (strictEqString_false _ _ Hr).
Qed.

(** A matching row ends the loop. *)
Lemma scanRows_hit (lChapter row : string) (rest : list string) :
  firstCell row = Some lChapter ->
  scanRows (row :: rest) lChapter = Some (mappingOfRow row).
Proof.
  intros H. cbn [scanRows]. cbv zeta.
  unfold firstCell in H.
  now rewrite (proj2 (strictEqString_true _ _) H).
Qed.

Lemma scanRows_none (lChapter : string) (rows : list string) :
  Forall (fun r => firstCell r <> Some lChapter) rows ->
  scanRows rows lChapter = None.
Proof.
  intros H. rewrite <- (app_nil_r rows). now rewrite scanRows_skip.
Qed.

Lemma replace_leading (pat rest : string) :
  Str.replace pat "" (pat ++ rest) = rest.
Proof. unfold Str.replace. now rewrite cut_prefix. Qed.

(** The sample row is found when no earlier table row has its id. *)
Lemma sample_row_found (md : string) (before after : list string) :
  mdLines md
  = (before ++ "| L-03 | 1.3 | Income and Taxes |" :: after)%list ->
  Forall (fun line =>
            isTableRow line = true -> firstCell line <> Some "L-03")
         before ->
  parseChapterMapping md "L-03"
  = {| stateChapter := Some "1.3"; title := "Income and Taxes" |}.
Proof.
  intros Hlines Hbefore.
  unfold parseChapterMapping.
  rewrite tableRows_filter, Hlines, filter_app.
  rewrite scanRows_skip.
  - reflexivity.
  - apply Forall_forall. intros r Hr.
    apply filter_In in Hr as [Hin Hrow].
    rewrite Forall_forall in Hbefore. now apply Hbefore.
Qed.

(** C10: when several table rows have the target chapter id as their first
    cell, [parseChapterMapping] answers from the earliest of them: whatever
    rows follow it ([after], matching or not), the result is the second
    cell of that row and its third cell (or the placeholder title). *)
Theorem parseChapterMapping_first_match_wins
  (md lChapter : string) (before : list string) (row : string)
  (after : list string) :
  tableRows md = (before ++ row :: after)%list ->
  Forall (fun r => firstCell r <> Some lChapter) before ->
  firstCell row = Some lChapter ->
  parseChapterMapping md lChapter = mappingOfRow row.
Proof.
  intros Hrows Hbefore Hrow.
  unfold parseChapterMapping.
  now rewrite Hrows, (scanRows_skip _ _ _ Hbefore), (scanRows_hit _ _ _ Hrow).
Qed.

Lemma parseChapterMapping_first_match_wins_witness :
  parseChapterMapping twoRows "L-03"
  = {| stateChapter := Some "1.3"; title := "Income and Taxes" |}.
Proof.
  exact (parseChapterMapping_first_match_wins twoRows "L-03" []
           "| L-03 | 1.3 | Income and Taxes |"
           ["| L-03 | 9.9 | Shadowed |"]
           eq_refl (Forall_nil _) eq_refl).
Defined.

(** C3: a mapping text whose lines hold the row
    [| L-03 | 1.3 | Income and Taxes |], no table row before it having
    [L-03] as first cell, maps [L-03] to chapter 1.3, Income and Taxes.  A
    mapping text none of whose table rows has the queried id as first cell
    gives the fallback: the id without its first [L-], which for an id
    [L-rest] is [rest] and for an id that holds no [L-] is the id itself,
    and the title Unknown Chapter.  The function is total: no input makes
    it fail. *)
Theorem parseChapterMapping_lookup_and_fallback (md : string) :
  (forall before after : list string,
      mdLines md
  = (before ++ "| L-03 | 1.3 | Income and Taxes |" :: after)%list ->
      Forall (fun line =>
                isTableRow line = true -> firstCell line <> Some "L-03")
             before ->
      parseChapterMapping md "L-03"
      = {| stateChapter := Some "1.3"; title := "Income and Taxes" |})
  /\
  (forall lChapter : string,
      Forall (fun row => firstCell row <> Some lChapter) (tableRows md) ->
      parseChapterMapping md lChapter
      = {| stateChapter := Some (Str.replace "L-" "" lChapter);
           title := "Unknown Chapter" |}
      /\ (forall rest, lChapter = "L-" ++ rest ->
           parseChapterMapping md lChapter
           = {| stateChapter := Some rest; title := "Unknown Chapter" |})
      /\ (Str.includes lChapter "L-" = false ->
           parseChapterMapping md lChapter
           = {| stateChapter := Some lChapter;
                title := "Unknown Chapter" |})).
Proof.
  split.
  - intros before after Hlines Hbefore.
    now apply (sample_row_found md before after).
  - intros lChapter Hnone.
    assert (E : parseChapterMapping md lChapter
                = {| stateChapter := Some (Str.replace "L-" "" lChapter);
                     title := "Unknown Chapter" |}).
    { unfold parseChapterMapping. now rewrite (scanRows_none _ _ Hnone). }
    split; [exact E|]. split.
    + intros rest ->. now rewrite E, replace_leading.
    + intros Habsent. now rewrite E, replace_absent.
Qed.

Lemma parseChapterMapping_lookup_and_fallback_witness :
  parseChapterMapping sampleMapping "L-03"
  = {| stateChapter := Some "1.3"; title := "Income and Taxes" |}
  /\ parseChapterMapping sampleMapping "L-99"
     = {| stateChapter := Some "99"; title := "Unknown Chapter" |}.
Proof.
  split.
  - apply (proj1 (parseChapterMapping_lookup_and_fallback sampleMapping)
             ["# Oklahoma"; "| L-Chapter | Chapter | Title |"; "|---|---|---|"]
             ["| L-04 | 1.4 | Budgeting |"]).
    + reflexivity.
    + repeat (apply Forall_cons;
              [ intros H1;
                first [ vm_compute in H1; discriminate H1
                      | intros H2; vm_compute in H2; discriminate H2 ] | ]).
      apply Forall_nil.
  - refine (proj1 (proj2 (proj2 (parseChapterMapping_lookup_and_fallback
                                   sampleMapping) "L-99" _)) "99" eq_refl).
    assert (E : tableRows sampleMapping
                = [ "| L-Chapter | Chapter | Title |"; "|---|---|---|";
                    "| L-03 | 1.3 | Income and Taxes |";
                    "| L-04 | 1.4 | Budgeting |" ])
      by (vm_compute; reflexivity).
    rewrite E.
    repeat (apply Forall_cons;
            [ intros H; vm_compute in H; discriminate H | ]).
    apply Forall_nil.
Defined.

End ChapterMapping.

(* ------------------------------------------------------------------ *)
(** ** Placeholder interpolation *)

Section Interpolation.

(** A pass of literal replacements leaves a text that holds none of its
    placeholders as it is. *)
Lemma fold_replaceAll_absent {A : Type} (pat by_ : A -> string)
  (entries : list A) (text : string) :
  Forall (fun a => Str.includes text (pat a) = false) entries ->
  fold_left (fun result a => Str.replaceAll (pat a) (by_ a) result)
            entries text = text.
Proof.
  induction 1 as [|a entries Ha _ IH]; [reflexivity|].
  cbn [fold_left]. now rewrite (replaceAll_absent _ _ _ Ha).
Qed.

Lemma replaceStateVars_resolved (V : StateVars) (text : string) :
  Forall (fun name => Str.includes text (placeholder name) = false)
         (map fst V) ->
  replaceStateVars V text = text.
Proof.
  intros H. unfold replaceStateVars.
  exact (fold_replaceAll_absent placeholder
           (fun key => displayValue (lookup V key)) _ _ H).
Qed.

Lemma replaceCalculated_resolved (V : StateVars) (text : string) :
  Forall (fun name => Str.includes text (placeholder name) = false)
         (map fst CALCULATED_FIELDS) ->
  replaceCalculated V text = text.
Proof.
  intros H. unfold replaceCalculated.
  apply (fold_replaceAll_absent
           (fun entry : string * (StateVars -> spec_float -> string) =>
              placeholder (fst entry))
           (fun entry => snd entry V defaultBaseAmount)).
  now rewrite Forall_map in H.
Qed.

Lemma replaceMetadata_resolved (C : JsVal) (text : string) :
  Forall (fun name => Str.includes text (placeholder name) = false)
         ["CHAPTER_TITLE"; "CHAPTER_SUBTITLE"] ->
  replaceMetadata C text = text.
Proof.
  intros H.
  inversion H as [|? ? Htitle H']; subst.
  inversion H' as [|? ? Hsub _]; subst.
  unfold replaceMetadata.
  destruct (truthy C && truthy (prop C "metadata")); [|reflexivity].
  change "{{CHAPTER_TITLE}}" with (placeholder "CHAPTER_TITLE").
  change "{{CHAPTER_SUBTITLE}}" with (placeholder "CHAPTER_SUBTITLE").
  rewrite (replace_absent _ _ _ Htitle).
  now rewrite (replace_absent _ _ _ Hsub).
Qed.

(** Interpolation returns a fully resolved text unchanged. *)
Lemma interpolateVariables_resolved (T : string) (V : StateVars)
  (C : JsVal) :
  fullyResolved T V -> interpolateVariables (JStr T) V C = JStr T.
Proof.
  unfold fullyResolved, replaceableNames.
  intros H.
  apply Forall_app in H as [HV H].
  apply Forall_app in H as [HF HM].
  destruct T as [|c T]; [reflexivity|].
  cbn [interpolateVariables truthy Str.isEmpty negb].
  rewrite (replaceStateVars_resolved _ _ HV).
  rewrite (replaceCalculated_resolved _ _ HF).
  now rewrite (replaceMetadata_resolved _ _ HM).
Qed.

(** C5: on a text [T] that holds no placeholder of a state-variable key,
    of a calculated field or of the chapter metadata, interpolating twice
    gives what interpolating once gives. *)
Theorem interpolateVariables_idempotent (T : string) (V : StateVars)
  (C : JsVal) :
  fullyResolved T V ->
  interpolateVariables (interpolateVariables (JStr T) V C) V C
  = interpolateVariables (JStr T) V C.
Proof.
  intros H.
  rewrite (interpolateVariables_resolved T V C H).
  exact (interpolateVariables_resolved T V C H).
Qed.

Lemma interpolateVariables_idempotent_witness :
  interpolateVariables
    (interpolateVariables
       (JStr "Oklahoma taxes income at 4.75% {{LEFT_ALONE}}")
       oklahoma lesson)
    oklahoma lesson
  = interpolateVariables
      (JStr "Oklahoma taxes income at 4.75% {{LEFT_ALONE}}")
      oklahoma lesson.
Proof.
  apply (interpolateVariables_idempotent
           "Oklahoma taxes income at 4.75% {{LEFT_ALONE}}" oklahoma lesson).
  unfold fullyResolved. repeat constructor.
Defined.

(** C1, as the code has it: a falsy template ([null], [undefined], [false],
    [0], [NaN] and the empty string) gives the empty string; a truthy
    template that is not a string comes back unchanged.  The function is
    total: no template makes it fail. *)
Theorem interpolateVariables_non_string (template : JsVal) (V : StateVars)
  (C : JsVal) :
  (truthy template = false -> interpolateVariables template V C = JStr "")
  /\
  ((forall s, template <> JStr s) -> truthy template = true ->
   interpolateVariables template V C = template).
Proof.
  split.
  - intros H.
    destruct template as [| |b|x|s|items|props];
      cbn [interpolateVariables]; unfold orVal; rewrite ?H; reflexivity.
  - intros Hs H.
    destruct template as [| |b|x|s|items|props];
      try (exfalso; apply (Hs s); reflexivity);
      cbn [interpolateVariables]; unfold orVal; now rewrite H.
Qed.

Lemma interpolateVariables_non_string_witness :
  interpolateVariables JNull oklahoma lesson = JStr ""
  /\ interpolateVariables (JNum (Num.ofZ 4000)) oklahoma lesson
     = JNum (Num.ofZ 4000).
Proof.
  split.
  - exact (proj1 (interpolateVariables_non_string JNull oklahoma lesson)
             eq_refl).
  - apply (proj2 (interpolateVariables_non_string (JNum (Num.ofZ 4000))
                    oklahoma lesson)).
    + intros s H. discriminate H.
    + reflexivity.
Defined.

(** C1 as stated fails: the number 4000 (a paycheck amount given as a JSON
    number) is not a string, and interpolation returns it, not the empty
    string. *)
Lemma interpolateVariables_number_passes_through :
  interpolateVariables (JNum (Num.ofZ 4000)) oklahoma lesson <> JStr "".
Proof. intros H. discriminate H. Qed.

End Interpolation.

(* ------------------------------------------------------------------ *)
(** ** Layout renderers *)

Section Layouts.

Lemma get_defined (v : JsVal) (key : string) :
  isNullish v = false -> get v key = Ok (prop v key).
Proof. intros H. unfold get. now rewrite H. Qed.

(** Only [undefined] serializes to [undefined]. *)
Lemma serializeJSON_defined (gap indent : string) (v : JsVal) :
  v <> JUndefined -> exists text, serializeJSON gap indent v = Some text.
Proof.
  intros H. destruct v; cbn [serializeJSON]; eauto. contradiction.
Qed.

Lemma orVal_truthy (a b : JsVal) : truthy b = true -> truthy (orVal a b) = true.
Proof. intros H. unfold orVal. destruct (truthy a) eqn:E; assumption. Qed.

Lemma truthy_defined (v : JsVal) : truthy v = true -> v <> JUndefined.
Proof. intros H ->. discriminate H. Qed.

Lemma truthy_prop_truthy (v : JsVal) (key : string) :
  truthy (prop v key) = true -> truthy v = true.
Proof. destruct v; cbn [prop truthy]; intros H; try discriminate H; reflexivity. Qed.

Lemma truthy_not_nullish (v : JsVal) :
  truthy v = true -> isNullish v = false.
Proof. destruct v; intros H; try reflexivity; discriminate H. Qed.

Lemma isLayout_truthy (layout : JsVal) (name : string) :
  name <> "" -> isLayout layout name = true -> truthy layout = true.
Proof.
  intros Hname H. destruct layout; try discriminate H.
  cbn [isLayout] in H. apply String.eqb_eq in H. subst.
  destruct name; [contradiction | reflexivity].
Qed.

Lemma no_objective_cards (data : JsVal) (V : StateVars) :
  isNullish data = false ->
  prop data "objectives" = JUndefined \/ prop data "objectives" = JArr [] ->
  generateObjectivesLayout data V = Ok emptyObjectives.
Proof.
  intros Hdata Hobj.
  unfold generateObjectivesLayout.
  rewrite (get_defined _ _ Hdata).
  destruct Hobj as [-> | ->]; reflexivity.
Qed.

(** C8: for a layout data value whose [objectives] is absent or the empty
    list, the objectives renderer returns the wrapping container alone,
    with no objective card, and does not fail; so does the layout renderer
    for the [objectives-expanded] layout, where absent layout data counts
    as [{}]. *)
Theorem generateObjectivesLayout_no_objectives (data : JsVal)
  (V : StateVars) :
  prop data "objectives" = JUndefined \/ prop data "objectives" = JArr [] ->
  (isNullish data = false ->
   generateObjectivesLayout data V = Ok emptyObjectives)
  /\
  (forall content,
      isLayout (prop content "layout") "objectives-expanded" = true ->
      orVal (prop content "layoutData") (JObj []) = data ->
      generateLayoutContent content V = Ok emptyObjectives).
Proof.
  intros Hobj. split.
  - intros Hdata. now apply no_objective_cards.
  - intros content Hlayout Hdata.
    assert (Ht : truthy (prop content "layout") = true).
    { apply (isLayout_truthy _ "objectives-expanded"); [discriminate|exact Hlayout]. }
    unfold generateLayoutContent.
    rewrite (truthy_prop_truthy _ _ Ht), Ht, Hlayout, Hdata.
    cbn [negb orb].
    apply no_objective_cards; [|exact Hobj].
    subst data. apply truthy_not_nullish, orVal_truthy. reflexivity.
Qed.

Lemma generateObjectivesLayout_no_objectives_witness :
  generateObjectivesLayout (JObj []) oklahoma = Ok emptyObjectives
  /\ generateObjectivesLayout (JObj [("objectives", JArr [])]) oklahoma
     = Ok emptyObjectives
  /\ generateLayoutContent (JObj [("layout", JStr "objectives-expanded")])
       oklahoma
     = Ok emptyObjectives.
Proof.
  split; [|split].
  - apply (proj1 (generateObjectivesLayout_no_objectives (JObj []) oklahoma
                    (or_introl eq_refl))).
    reflexivity.
  - apply (proj1 (generateObjectivesLayout_no_objectives
                    (JObj [("objectives", JArr [])]) oklahoma
                    (or_intror eq_refl))).
    reflexivity.
  - apply (proj2 (generateObjectivesLayout_no_objectives (JObj []) oklahoma
                    (or_introl eq_refl))); reflexivity.
Defined.

(** C2, as the code has it: a layout name that is set and is none of the
    seven named layouts goes to the generic renderer, whose fragment holds
    [JSON.stringify(layoutData, null, 2)] in a preformatted block, [{}]
    standing for absent layout data; a content value that is absent or
    whose layout is absent or empty renders as the empty string.  Neither
    case fails. *)
Theorem generateLayoutContent_fallback (content : JsVal) (V : StateVars) :
  (truthy (prop content "layout") = true ->
   Forall (fun name => isLayout (prop content "layout") name = false)
          knownLayouts ->
   exists text,
     JSON_stringify2 (orVal (prop content "layoutData") (JObj [])) = Some text
     /\ generateLayoutContent content V = Ok (genericFragment text))
  /\
  (truthy content = false \/ truthy (prop content "layout") = false ->
   generateLayoutContent content V = Ok "").
Proof.
  split.
  - intros Hlayout Hunknown.
    destruct (serializeJSON_defined "  " ""
                (orVal (prop content "layoutData") (JObj [])))
      as [text Htext].
    { apply truthy_defined, orVal_truthy. reflexivity. }
    exists text. split; [exact Htext|].
    unfold generateLayoutContent.
    rewrite (truthy_prop_truthy _ _ Hlayout), Hlayout.
    cbn [negb orb].
    unfold knownLayouts in Hunknown.
    repeat match goal with
           | H : Forall _ (_ :: _) |- _ =>
               let Hhead := fresh "Hhead" in
               let Htail := fresh "Htail" in
               apply Forall_cons_iff in H as [Hhead Htail];
               rewrite Hhead
           end.
    unfold generateGenericLayout.
    unfold JSON_stringify2 in *. now rewrite Htext.
  - intros H. unfold generateLayoutContent.
    destruct H as [H|H]; rewrite H; [reflexivity|].
    now rewrite orb_true_r.
Qed.

Lemma generateLayoutContent_fallback_witness :
  (exists text,
     JSON_stringify2 (orVal (prop mysteryContent "layoutData") (JObj []))
     = Some text
     /\ generateLayoutContent mysteryContent oklahoma
        = Ok (genericFragment text))
  /\ generateLayoutContent JNull oklahoma = Ok "".
Proof.
  split.
  - apply (proj1 (generateLayoutContent_fallback mysteryContent oklahoma)).
    + reflexivity.
    + repeat constructor.
  - apply (proj2 (generateLayoutContent_fallback JNull oklahoma)).
    left. reflexivity.
Defined.

(** C2 as stated fails: with the layout name absent the result is the
    empty string, which is not what the generic renderer produces for the
    same layout data. *)
Lemma generateLayoutContent_absent_layout_is_empty :
  generateLayoutContent noLayoutContent oklahoma = Ok ""
  /\ generateLayoutContent noLayoutContent oklahoma
     <> generateGenericLayout (prop noLayoutContent "layoutData") oklahoma.
Proof.
  split; [reflexivity|].
  intros H. vm_compute in H. discriminate H.
Qed.

End Layouts.

(* ------------------------------------------------------------------ *)
(** ** Content document validator *)

Section Validation.

Lemma checkSlideItems_ok (index : nat) (items : list JsVal) :
  forallb (fun slide => negb (isNullish slide)) items = true ->
  exists warnings, checkSlideItems index items = Ok warnings.
Proof.
  revert index.
  induction items as [|slide items IH]; intros index H.
  - now exists [].
  - cbn [forallb] in H. apply andb_true_iff in H as [Hs Hrest].
    apply negb_true_iff in Hs.
    destruct (IH (S index) Hrest) as [more Hmore].
    cbn [checkSlideItems].
    rewrite !(get_defined _ _ Hs). cbn [bindExc].
    rewrite Hmore. cbn [bindExc]. eauto.
Qed.

Lemma checkSlideItems_throw (index : nat) (items : list JsVal) :
  forallb (fun slide => negb (isNullish slide)) items = false ->
  checkSlideItems index items = Throw.
Proof.
  revert index.
  induction items as [|slide items IH]; intros index H.
  - discriminate H.
  - cbn [forallb] in H. cbn [checkSlideItems].
    destruct (isNullish slide) eqn:Hs.
    + unfold get. now rewrite Hs.
    + rewrite !(get_defined _ _ Hs). cbn [bindExc].
      cbn [negb andb] in H. now rewrite (IH (S index) H).
Qed.

Lemma isNil_app {A : Type} (l1 l2 : list A) :
  isNil (l1 ++ l2)%list = isNil l1 && isNil l2.
Proof. destruct l1; reflexivity. Qed.

(** The metadata check never fails on a document that is not [null]; it
    pushes no error exactly when the four metadata conditions hold. *)
Lemma checkMetadata_outcome (data : JsVal) :
  isNullish data = false ->
  exists e,
    checkMetadata data = Ok e /\
    isNil e =
      truthy (prop data "metadata") &&
      truthy (prop (prop data "metadata") "lChapter") &&
      truthy (prop (prop data "metadata") "title") &&
      negb (isUndefined (prop (prop data "metadata") "hasStateVariables")).
Proof.
  intros Hdata. unfold checkMetadata.
  rewrite (get_defined _ _ Hdata). cbn [bindExc].
  destruct (truthy (prop data "metadata")); cbn [negb].
  - eexists. split; [reflexivity|].
    destruct (truthy (prop (prop data "metadata") "lChapter"));
      destruct (truthy (prop (prop data "metadata") "title"));
      destruct (isUndefined (prop (prop data "metadata") "hasStateVariables"));
      reflexivity.
  - eexists. split; reflexivity.
Qed.

(** The slides check fails exactly on a [null] entry; it pushes its error
    exactly when [slides] is not an array. *)
Lemma checkSlides_outcome (data : JsVal) :
  isNullish data = false ->
  match checkSlides data with
  | Ok (e, _) =>
      slidesReadable data = true /\ isNil e = isArray (prop data "slides")
  | Throw => slidesReadable data = false
  end.
Proof.
  intros Hdata. unfold checkSlides, slidesReadable.
  rewrite (get_defined _ _ Hdata). cbn [bindExc].
  destruct (prop data "slides") as [| |b|x|s|items|props];
    cbn [truthy isArray negb orb]; rewrite ?orb_true_r;
    try (split; reflexivity).
  destruct (forallb (fun slide => negb (isNullish slide)) items) eqn:Hall.
  - destruct (checkSlideItems_ok 0 items Hall) as [w ->]. now split.
  - now rewrite (checkSlideItems_throw 0 items Hall).
Qed.

(** The state-variable check fails exactly when [new Set] does. *)
Lemma checkStateVariables_outcome (data : JsVal) :
  isNullish data = false ->
  match checkStateVariables data with
  | Ok _ => declaredReadable data = true
  | Throw => declaredReadable data = false
  end.
Proof.
  intros Hdata. unfold checkStateVariables, declaredReadable.
  rewrite (get_defined _ _ Hdata). cbn [bindExc].
  destruct (truthy (prop data "metadata") &&
            truthy (prop (prop data "metadata") "hasStateVariables"));
    [|reflexivity].
  destruct (orVal (prop (prop data "metadata") "stateVariablesUsed")
              (JArr [])); reflexivity.
Qed.

(** The success message reads nothing that could fail. *)
Lemma printResults_ok (data : JsVal) (found : Findings) :
  isNullish data = false ->
  (isNil (errors found) = true ->
   truthy (prop data "metadata") = true /\
   isArray (prop data "slides") = true) ->
  printResults data found = Ok tt.
Proof.
  intros Hdata H. unfold printResults.
  destruct (isNil (errors found)); [|reflexivity].
  destruct (isNil (warnings found)); [|reflexivity].
  destruct (H eq_refl) as [Hm Hs]. cbn [andb].
  rewrite !(get_defined _ _ Hdata). cbn [bindExc].
  destruct (prop data "slides"); try discriminate Hs.
  destruct (prop data "metadata"); try discriminate Hm; reflexivity.
Qed.

(** The outcome of the checks, read off the document. *)
Lemma validateDocument_outcome (data : JsVal) :
  match validateDocument data with
  | Ok found =>
      checksComplete data = true /\ isNil (errors found) = noHardError data
  | Throw => checksComplete data = false
  end.
Proof.
  unfold validateDocument, checksComplete.
  destruct (isNullish data) eqn:Hdata.
  { unfold checkMetadata, get. rewrite Hdata. reflexivity. }
  destruct (checkMetadata_outcome data Hdata) as (e1 & -> & He1).
  cbn [bindExc negb andb].
  pose proof (checkSlides_outcome data Hdata) as Hsl.
  destruct (checkSlides data) as [[e2 w1]|]; cbn [bindExc];
    [destruct Hsl as [-> He2] | now rewrite Hsl].
  pose proof (checkStateVariables_outcome data Hdata) as Hsv.
  destruct (checkStateVariables data) as [w2|]; cbn [bindExc];
    [rewrite Hsv | now rewrite Hsv].
  assert (Herr : isNil (e1 ++ e2)%list = noHardError data).
  { rewrite isNil_app, He1, He2. reflexivity. }
  rewrite printResults_ok; cbn [bindExc errors fst snd].
  - split; [reflexivity | exact Herr].
  - exact Hdata.
  - rewrite Herr. unfold noHardError. intros H.
    repeat (apply andb_true_iff in H as [H ?]). now split.
Qed.

Lemma validateContentJSON_outcome (data : JsVal) :
  validateContentJSON (Ok data) = noHardError data && checksComplete data.
Proof.
  unfold validateContentJSON. cbn [bindExc].
  pose proof (validateDocument_outcome data) as H.
  destruct (validateDocument data) as [found|].
  - destruct H as [-> ->]. now rewrite andb_true_r.
  - rewrite H. now rewrite andb_false_r.
Qed.

(** C6, as the code has it: validation passes exactly when none of the five
    hard errors is found and the checks run to their end, an exception in
    them ([null] as the document or as a slide, a [stateVariablesUsed] that
    [new Set] rejects, a file that cannot be read or parsed) being caught
    and answered with fail.  When the checks run to their end the answer is
    whether the error list is empty, whatever the warnings, and the error
    list is empty exactly when none of the five hard errors is found.  A
    document without [metadata.title] fails. *)
Theorem validateContentJSON_pass_iff (data : JsVal) :
  validateContentJSON (Ok data) = noHardError data && checksComplete data
  /\ (forall found,
        validateDocument data = Ok found ->
        validateContentJSON (Ok data) = isNil (errors found)
        /\ isNil (errors found) = noHardError data)
  /\ (truthy (prop (prop data "metadata") "title") = false ->
      validateContentJSON (Ok data) = false)
  /\ validateContentJSON Throw = false.
Proof.
  split; [apply validateContentJSON_outcome|].
  split; [|split; [|reflexivity]].
  - intros found Hfound.
    pose proof (validateDocument_outcome data) as H.
    unfold validateContentJSON. cbn [bindExc].
    rewrite Hfound in *. now destruct H.
  - intros Htitle. rewrite validateContentJSON_outcome.
    unfold noHardError. rewrite Htitle.
    now rewrite !andb_false_r.
Qed.

Lemma validateContentJSON_pass_iff_witness :
  validateContentJSON (Ok completeDocument) = true
  /\ validateContentJSON (Ok untitledDocument) = false.
Proof.
  split.
  - refine (proj1 (proj1 (proj2 (validateContentJSON_pass_iff
                                   completeDocument)) _ eq_refl)).
  - exact (proj1 (proj2 (proj2 (validateContentJSON_pass_iff
                                  untitledDocument))) eq_refl).
Defined.

(** C6 as stated fails: a document with none of the five hard errors whose
    slides array holds [null] does not pass. *)
Lemma validateContentJSON_null_slide_fails :
  noHardError nullSlideDocument = true
  /\ validateContentJSON (Ok nullSlideDocument) = false.
Proof. split; reflexivity. Qed.



End Validation.

(* ------------------------------------------------------------------ *)
(** ** State-variable detection *)

Section Detection.

Lemma spanName_sound (s name r : string) :
  spanName s = (name, r) -> s = name ++ r /\ allNameChars name = true.
Proof.
  revert name r.
  induction s as [|c s IH]; intros name r H; cbn [spanName] in H.
  - injection H as <- <-. now split.
  - destruct (isNameChar c) eqn:Hc.
    + destruct (spanName s) as [name' r'] eqn:E.
      injection H as <- <-.
      destruct (IH _ _ eq_refl) as [-> Hall].
      split; [reflexivity|]. cbn [allNameChars]. now rewrite Hc.
    + injection H as <- <-. now split.
Qed.

(** A run of name characters followed by a closing brace is taken whole. *)
Lemma spanName_closing (name post : string) :
  allNameChars name = true ->
  spanName (name ++ "}}" ++ post) = (name, "}}" ++ post).
Proof.
  induction name as [|c name IH]; intros H.
  - reflexivity.
  - cbn [allNameChars] in H. apply andb_true_iff in H as [Hc Hall].
    change (String c name ++ "}}" ++ post)
      with (String c (name ++ "}}" ++ post)).
    cbn [spanName]. now rewrite Hc, (IH Hall).
Qed.

Lemma drop_app (p r : string) : Str.drop (String.length p) (p ++ r) = r.
Proof.
  induction p as [|c p IH]; [now destruct r | exact IH].
Qed.

Lemma matchAt_sound (s name rest : string) :
  matchAt s = Some (name, rest) ->
  s = placeholder name ++ rest /\ isName name = true.
Proof.
  unfold matchAt. intros H.
  destruct (Str.startsWith s "{{") eqn:Hopen; [|discriminate H].
  apply startsWith_inv in Hopen as [r ->].
  change (Str.drop 2 ("{{" ++ r)) with r in H.
  destruct (spanName r) as [name' r'] eqn:Hspan.
  destruct (negb (Str.isEmpty name') && Str.startsWith r' "}}") eqn:Hc;
    [|discriminate H].
  injection H as <- <-.
  apply andb_true_iff in Hc as [Hne Hclose].
  apply startsWith_inv in Hclose as [r'' ->].
  apply spanName_sound in Hspan as [-> Hall].
  split.
  - unfold placeholder. now rewrite !append_assoc.
  - unfold isName. now rewrite Hne, Hall.
Qed.

Lemma matchAt_complete (name post : string) :
  isName name = true ->
  matchAt (placeholder name ++ post) = Some (name, post).
Proof.
  unfold isName. intros H. apply andb_true_iff in H as [Hne Hall].
  unfold matchAt, placeholder.
  rewrite !append_assoc.
  rewrite startsWith_app.
  change (Str.drop 2 ("{{" ++ name ++ "}}" ++ post))
    with (name ++ "}}" ++ post).
  rewrite (spanName_closing _ _ Hall), Hne.
  rewrite startsWith_app. reflexivity.
Qed.

Lemma isNameChar_not_open : isNameChar "{" = false.
Proof. reflexivity. Qed.

(** Inside a name and its closing braces no placeholder starts. *)
Lemma no_overlap_in_name (m rest p tail : string) :
  allNameChars m = true ->
  m ++ "}}" ++ rest = p ++ "{{" ++ tail ->
  String.length m + 2 <= String.length p.
Proof.
  revert p.
  induction m as [|a m IH]; intros p Hall E.
  - destruct p as [|x [|y p]]; try discriminate E.
    cbn [String.length]. lia.
  - cbn [allNameChars] in Hall. apply andb_true_iff in Hall as [Ha Hall].
    destruct p as [|x p].
    + injection E as -> _. rewrite isNameChar_not_open in Ha. discriminate Ha.
    + injection E as _ E. specialize (IH p Hall E).
      cbn [String.length]. lia.
Qed.

(** A placeholder that starts after the first code unit of a match starts
    after the whole match. *)
Lemma no_overlap (m rest p tail : string) :
  isName m = true ->
  placeholder m ++ rest = String "{" (p ++ "{{" ++ tail) ->
  String.length m + 3 <= String.length p.
Proof.
  unfold isName, placeholder. intros H E.
  apply andb_true_iff in H as [Hne Hall].
  rewrite !append_assoc in E. injection E as E.
  destruct p as [|x p].
  - destruct m as [|a m]; [discriminate Hne|].
    injection E as -> _.
    cbn [allNameChars] in Hall. rewrite isNameChar_not_open in Hall.
    discriminate Hall.
  - injection E as _ E.
    pose proof (no_overlap_in_name _ _ _ _ Hall E).
    cbn [String.length]. lia.
Qed.

Lemma placeholder_not_empty (v post : string) : placeholder v ++ post <> "".
Proof. discriminate. Qed.

(** Every occurrence of a placeholder past the [skip]ped code units is
    found. *)
Lemma scanPlaceholders_complete (s : string) :
  forall (skip : nat) (pre post v : string),
    isName v = true ->
    s = pre ++ placeholder v ++ post ->
    skip <= String.length pre ->
    In v (scanPlaceholders skip s).
Proof.
  induction s as [|c s IH]; intros skip pre post v Hv E Hskip.
  - destruct pre; discriminate E.
  - cbn [scanPlaceholders].
    destruct skip as [|k].
    + destruct pre as [|x pre].
      * change ("" ++ placeholder v ++ post)
          with (placeholder v ++ post) in E.
        rewrite E, (matchAt_complete _ _ Hv). now left.
      * injection E as -> E.
        destruct (matchAt (String x s)) as [[m rest]|] eqn:Hm.
        -- right. apply (IH _ pre post v Hv E).
           apply matchAt_sound in Hm as [Hs Hname].
           assert (Hx : x = "{"%char).
           { unfold placeholder in Hs. now injection Hs. }
           subst x. rewrite E in Hs.
           exact (no_overlap _ _ _ _ Hname (eq_sym Hs)).
        -- apply (IH _ pre post v Hv E). lia.
    + destruct pre as [|x pre]; [cbn in Hskip; lia|].
      injection E as -> E.
      apply (IH _ pre post v Hv E). cbn [String.length] in Hskip. lia.
Qed.

Lemma includes_cons (c : ascii) (s sub : string) :
  Str.includes s sub = true -> Str.includes (String c s) sub = true.
Proof. intros H. cbn [Str.includes]. rewrite H. apply orb_true_r. Qed.

(** Whatever is found is the name of a placeholder of the text. *)
Lemma scanPlaceholders_sound (s : string) :
  forall (skip : nat) (v : string),
    In v (scanPlaceholders skip s) -> isToken s v.
Proof.
  unfold isToken.
  induction s as [|c s IH]; intros skip v H; cbn [scanPlaceholders] in H.
  - contradiction.
  - destruct skip as [|k].
    + destruct (matchAt (String c s)) as [[m rest]|] eqn:Hm.
      * destruct H as [<- | H].
        -- apply matchAt_sound in Hm as [-> Hname].
           split; [exact Hname|].
           apply includes_iff. now exists "", rest.
        -- destruct (IH _ _ H) as [Hv Hin].
           split; [exact Hv | now apply includes_cons].
      * destruct (IH _ _ H) as [Hv Hin].
        split; [exact Hv | now apply includes_cons].
    + destruct (IH _ _ H) as [Hv Hin].
      split; [exact Hv | now apply includes_cons].
Qed.

(** The pattern finds exactly the tokens of the text. *)
Lemma placeholderNames_spec (s v : string) :
  In v (placeholderNames s) <-> isToken s v.
Proof.
  split.
  - apply scanPlaceholders_sound.
  - intros [Hv Hin].
    apply includes_iff in Hin as (pre & post & ->).
    apply (scanPlaceholders_complete _ 0 pre post v Hv eq_refl). lia.
Qed.

Lemma removeBraces_name (name : string) :
  allNameChars name = true -> removeBraces name = name.
Proof.
  induction name as [|c name IH]; intros H; [reflexivity|].
  cbn [allNameChars] in H. apply andb_true_iff in H as [Hc Hall].
  cbn [removeBraces].
  destruct (Ascii.eqb c "{" || Ascii.eqb c "}") eqn:E.
  - apply orb_true_iff in E as [E|E]; apply Ascii.eqb_eq in E; subst c;
      discriminate Hc.
  - now rewrite (IH Hall).
Qed.

Lemma removeBraces_app (a b : string) :
  removeBraces (a ++ b) = removeBraces a ++ removeBraces b.
Proof.
  induction a as [|c a IH]; [reflexivity|].
  change (String c a ++ b) with (String c (a ++ b)).
  cbn [removeBraces].
  destruct (Ascii.eqb c "{" || Ascii.eqb c "}"); [exact IH|].
  now rewrite IH.
Qed.

(** Stripping the braces of a match gives its group 1. *)
Lemma removeBraces_placeholder (name : string) :
  isName name = true -> removeBraces (placeholder name) = name.
Proof.
  unfold isName, placeholder. intros H.
  apply andb_true_iff in H as [_ Hall].
  rewrite !removeBraces_app, (removeBraces_name _ Hall).
  change (removeBraces "{{") with "".
  change (removeBraces "}}") with "".
  now rewrite append_nil_r.
Qed.

Lemma matched_names (s : string) :
  map removeBraces (matchPlaceholders s) = placeholderNames s.
Proof.
  unfold matchPlaceholders. rewrite map_map.
  rewrite <- (map_id (placeholderNames s)) at 2.
  apply map_ext_in. intros v Hv.
  apply placeholderNames_spec in Hv as [Hname _].
  now apply removeBraces_placeholder.
Qed.

Lemma existsb_eqb_In (x : string) (l : list string) :
  existsb (String.eqb x) l = true <-> In x l.
Proof.
  rewrite existsb_exists. split.
  - intros (y & Hy & E). apply String.eqb_eq in E. now subst.
  - intros H. exists x. split; [exact H | apply String.eqb_refl].
Qed.

(** The loop over the matches adds the names that are not there yet. *)
Lemma add_matches_In (matches found : list string) (v : string) :
  In v (fold_left
          (fun found m =>
             let varName := removeBraces m in
             if negb (existsb (String.eqb varName) found)
             then (found ++ [varName])%list
             else found)
          matches found)
  <-> In v found \/ In v (map removeBraces matches).
Proof.
  revert found.
  induction matches as [|m matches IH]; intros found; cbn [fold_left map In].
  - tauto.
  - rewrite IH. cbv zeta.
    destruct (existsb (String.eqb (removeBraces m)) found) eqn:E;
      cbn [negb].
    + apply existsb_eqb_In in E.
      split; [tauto|]. intros [H|[<-|H]]; tauto.
    + rewrite in_app_iff. cbn [In]. tauto.
Qed.

Lemma dedupe_In (l : list string) (v : string) : In v (dedupe l) <-> In v l.
Proof.
  induction l as [|x l IH]; cbn [dedupe In]; [tauto|].
  rewrite filter_In, IH.
  destruct (String.eqb_spec x v) as [->|ne]; cbn [negb].
  - split; [tauto | intros _; now left].
  - split; [intros [H|[H _]]; tauto | intros [H|H]; [tauto|]].
    right. now split.
Qed.

Lemma dedupe_NoDup (l : list string) : NoDup (dedupe l).
Proof.
  induction l as [|x l IH]; cbn [dedupe]; constructor.
  - rewrite filter_In. intros [_ H]. now rewrite String.eqb_refl in H.
  - now apply NoDup_filter.
Qed.

(** A text that holds the placeholder of a name holds the name. *)
Lemma includes_placeholder (s v : string) :
  Str.includes s (placeholder v) = true -> Str.includes s v = true.
Proof.
  intros H. apply includes_iff in H as (pre & post & ->).
  apply includes_iff. exists (pre ++ "{{"), ("}}" ++ post).
  unfold placeholder. now rewrite !append_assoc.
Qed.

(** What detection returns: without repeats, the known names that occur in
    the text and the names of its tokens. *)
Lemma detectIn_spec (contentStr : string) :
  NoDup (detectIn contentStr)
  /\ forall v,
       In v (detectIn contentStr) <->
       (In v STATE_VARIABLES /\ Str.includes contentStr v = true)
       \/ isToken contentStr v.
Proof.
  unfold detectIn. split; [apply dedupe_NoDup|].
  intros v. rewrite dedupe_In, add_matches_In, matched_names.
  rewrite placeholderNames_spec, filter_In.
  split.
  - intros [[Hin H]|H]; [left|now right].
    split; [exact Hin|].
    apply orb_true_iff in H as [H|H]; [now apply includes_placeholder|exact H].
  - intros [[Hin H]|H]; [left|now right].
    split; [exact Hin|]. rewrite H. apply orb_true_r.
Qed.

(** C7: the extractor records as [metadata.stateVariablesUsed] a list
    without repeats whose members are exactly the names of the known
    state-variable list that occur in the serialized document and the names
    of the [{{UPPER_SNAKE_CASE}}] tokens found in it, and it sets
    [metadata.hasStateVariables] to whether that list is non-empty.  The
    serialized document is that of [jsonOutput] as first built, with the
    flag [false] and the list empty. *)
Theorem convertHtmlToJson_state_variables
  (lChapter mainTitle subtitle : string) (slides : list JsVal) :
  exists (contentStr : string) (used : list string) (output : JsVal),
    JSON_stringify (jsonOutputOf lChapter mainTitle subtitle slides false [])
    = Some contentStr
    /\ convertHtmlToJson lChapter mainTitle subtitle slides = Ok output
    /\ prop (prop output "metadata") "stateVariablesUsed"
       = JArr (map JStr used)
    /\ NoDup used
    /\ (forall v,
          In v used <->
          (In v STATE_VARIABLES /\ Str.includes contentStr v = true)
          \/ isToken contentStr v)
    /\ (prop (prop output "metadata") "hasStateVariables" = JBool true
        <-> used <> [])
    /\ (prop (prop output "metadata") "hasStateVariables" = JBool false
        <-> used = []).
Proof.
  destruct (serializeJSON_defined "" ""
              (jsonOutputOf lChapter mainTitle subtitle slides false []))
    as [contentStr Hstr]; [discriminate|].
  exists contentStr, (detectIn contentStr).
  exists (jsonOutputOf lChapter mainTitle subtitle slides
            (negb (isNil (detectIn contentStr))) (detectIn contentStr)).
  destruct (detectIn_spec contentStr) as [Hnodup Hmem].
  split; [exact Hstr|].
  split.
  { unfold convertHtmlToJson, detectStateVariables, JSON_stringify.
    now rewrite Hstr. }
  split; [reflexivity|].
  split; [exact Hnodup|].
  split; [exact Hmem|].
  change (prop (prop (jsonOutputOf lChapter mainTitle subtitle slides
                        (negb (isNil (detectIn contentStr)))
                        (detectIn contentStr)) "metadata")
               "hasStateVariables")
    with (JBool (negb (isNil (detectIn contentStr)))).
  destruct (detectIn contentStr); cbn [isNil negb];
    split; split; congruence.
Qed.

End Detection.

(* ------------------------------------------------------------------ *)
(** ** Calculated fields *)

Section CalculatedFields.






(** *** The shape of [toFixed(2)] *)





















End CalculatedFields.

(* ------------------------------------------------------------------ *)
(** ** Interpolation: what a pass replaces *)

Section Replacement.

Lemma startsWith_other_head (c d : ascii) (s p : string) :
  Ascii.eqb c d = false -> Str.startsWith (String c s) (String d p) = false.
Proof.
  intros H. unfold Str.startsWith. cbn [String.prefix].
  destruct (ascii_dec d c) as [->|_]; [|reflexivity].
  now rewrite Ascii.eqb_refl in H.
Qed.

Lemma placeholder_head (key : string) :
  placeholder key = String "{" ("{" ++ key ++ "}}").
Proof. reflexivity. Qed.

Lemma startsWith_placeholder_noOpen (s key : string) :
  noOpenBrace s = true -> Str.startsWith s (placeholder key) = false.
Proof.
  destruct s as [|c s]; intros H; [reflexivity|].
  cbn [noOpenBrace] in H. apply andb_true_iff in H as [Hc _].
  apply negb_true_iff in Hc.
  rewrite placeholder_head. now apply startsWith_other_head.
Qed.

Lemma includes_noOpen (s key : string) :
  noOpenBrace s = true -> Str.includes s (placeholder key) = false.
Proof.
  induction s as [|c s IH]; intros H.
  - reflexivity.
  - cbn [Str.includes]. rewrite (startsWith_placeholder_noOpen _ _ H).
    cbn [noOpenBrace] in H. apply andb_true_iff in H as [_ H].
    now rewrite (IH H).
Qed.

Lemma noOpenBrace_app (a b : string) :
  noOpenBrace (a ++ b) = noOpenBrace a && noOpenBrace b.
Proof.
  induction a as [|c a IH]; [reflexivity|].
  change (String c a ++ b) with (String c (a ++ b)).
  cbn [noOpenBrace]. now rewrite IH, andb_assoc.
Qed.

Lemma split_go_skip (sep x rest : string) :
  Str.split_go sep (String.length x) (x ++ rest) = Str.split_go sep 0 rest.
Proof. induction x as [|c x IH]; [reflexivity | exact IH]. Qed.

(** Text without an opening brace before a placeholder stays in the piece
    that the scan is building. *)
Lemma split_go_pre (key pre rest : string) :
  noOpenBrace pre = true ->
  Str.split_go (placeholder key) 0 (pre ++ rest)
  = (pre ++ fst (Str.split_go (placeholder key) 0 rest),
     snd (Str.split_go (placeholder key) 0 rest)).
Proof.
  induction pre as [|c pre IH]; intros H.
  - change ("" ++ rest) with rest.
    now destruct (Str.split_go (placeholder key) 0 rest).
  - pose proof (startsWith_placeholder_noOpen (String c pre) key H) as Hc.
    cbn [noOpenBrace] in H. apply andb_true_iff in H as [Hc' H].
    change (String c pre ++ rest) with (String c (pre ++ rest)).
    cbn [Str.split_go].
    assert (Hs : Str.startsWith (String c (pre ++ rest)) (placeholder key)
                 = false).
    { apply negb_true_iff in Hc'.
      rewrite placeholder_head. now apply startsWith_other_head. }
    rewrite Hs, (IH H). reflexivity.
Qed.

Lemma split_go_hit (key rest : string) :
  Str.split_go (placeholder key) 0 (placeholder key ++ rest)
  = (EmptyString,
     fst (Str.split_go (placeholder key) 0 rest)
     :: snd (Str.split_go (placeholder key) 0 rest)).
Proof.
  assert (E : placeholder key ++ rest
              = String "{" (("{" ++ key ++ "}}") ++ rest)) by reflexivity.
  assert (L : String.length (placeholder key) - 1
              = String.length ("{" ++ key ++ "}}")).
  { rewrite placeholder_head. cbn [String.length]. lia. }
  pose proof (startsWith_app (placeholder key) rest) as Hs.
  pose proof (split_go_skip (placeholder key) ("{" ++ key ++ "}}") rest) as Hk.
  remember (placeholder key) as pat eqn:Hpat.
  rewrite E in *. cbn [Str.split_go]. rewrite Hs, L, Hk.
  now destruct (Str.split_go pat 0 rest).
Qed.

(** One placeholder between texts that hold none: the replacement takes
    its place. *)
Lemma replaceAll_single (key by_ pre post : string) :
  noOpenBrace pre = true ->
  Str.includes post (placeholder key) = false ->
  Str.replaceAll (placeholder key) by_ (pre ++ placeholder key ++ post)
  = pre ++ by_ ++ post.
Proof.
  intros Hpre Hpost.
  assert (Hsplit : Str.split (placeholder key) (pre ++ placeholder key ++ post)
                   = [pre; post]).
  { unfold Str.split. rewrite placeholder_head at 1.
    rewrite (split_go_pre _ _ _ Hpre), split_go_hit.
    rewrite (split_go_absent _ _ Hpost).
    cbn [fst snd]. now rewrite append_nil_r. }
  unfold Str.replaceAll. rewrite Hsplit. reflexivity.
Qed.

Lemma scan_noOpen (s : string) :
  noOpenBrace s = true -> scanPlaceholders 0 s = [].
Proof.
  induction s as [|c s IH]; intros H; [reflexivity|].
  cbn [scanPlaceholders].
  assert (Hm : matchAt (String c s) = None).
  { unfold matchAt.
    cbn [noOpenBrace] in H. apply andb_true_iff in H as [Hc _].
    apply negb_true_iff in Hc.
    change "{{" with (String "{" "{").
    now rewrite startsWith_other_head. }
  rewrite Hm.
  cbn [noOpenBrace] in H. apply andb_true_iff in H as [_ H]. exact (IH H).
Qed.

Lemma scan_skip (x rest : string) :
  scanPlaceholders (String.length x) (x ++ rest) = scanPlaceholders 0 rest.
Proof. induction x as [|c x IH]; [reflexivity | exact IH]. Qed.

Lemma scan_pre (pre rest : string) :
  noOpenBrace pre = true ->
  scanPlaceholders 0 (pre ++ rest) = scanPlaceholders 0 rest.
Proof.
  induction pre as [|c pre IH]; intros H; [reflexivity|].
  change (String c pre ++ rest) with (String c (pre ++ rest)).
  cbn [scanPlaceholders].
  assert (Hm : matchAt (String c (pre ++ rest)) = None).
  { unfold matchAt.
    cbn [noOpenBrace] in H. apply andb_true_iff in H as [Hc _].
    apply negb_true_iff in Hc.
    change "{{" with (String "{" "{").
    now rewrite startsWith_other_head. }
  rewrite Hm.
  cbn [noOpenBrace] in H. apply andb_true_iff in H as [_ H]. exact (IH H).
Qed.

(** The only token of such a text is the one placeholder. *)
Lemma scan_single (key pre post : string) :
  isName key = true ->
  noOpenBrace pre = true -> noOpenBrace post = true ->
  placeholderNames (pre ++ placeholder key ++ post) = [key].
Proof.
  intros Hkey Hpre Hpost.
  unfold placeholderNames. rewrite (scan_pre _ _ Hpre).
  pose proof (matchAt_complete key post Hkey) as Hm.
  pose proof (scan_skip ("{" ++ key ++ "}}") post) as Hk.
  unfold placeholder in *.
  change (("{{" ++ key ++ "}}") ++ post)
    with (String "{" (("{" ++ key ++ "}}") ++ post)) in *.
  cbn [scanPlaceholders]. rewrite Hm.
  replace (String.length key + 3)
    with (String.length ("{" ++ key ++ "}}")).
  - rewrite Hk, (scan_noOpen _ Hpost). reflexivity.
  - change ("{" ++ key ++ "}}") with (String "{" (key ++ "}}")).
    cbn [String.length]. rewrite length_append. cbn [String.length]. lia.
Qed.

(** No other name has its placeholder in such a text. *)
Lemma other_placeholder_absent (key other pre post : string) :
  isName key = true -> isName other = true -> other <> key ->
  noOpenBrace pre = true -> noOpenBrace post = true ->
  Str.includes (pre ++ placeholder key ++ post) (placeholder other) = false.
Proof.
  intros Hkey Hother Hne Hpre Hpost.
  destruct (Str.includes (pre ++ placeholder key ++ post)
              (placeholder other)) eqn:E; [|reflexivity].
  assert (Hin : In other (placeholderNames (pre ++ placeholder key ++ post))).
  { apply placeholderNames_spec. now split. }
  rewrite (scan_single _ _ _ Hkey Hpre Hpost) in Hin.
  destruct Hin as [->|[]]. contradiction.
Qed.

(** A pass over named entries turns the one placeholder of [key] into the
    replacement the entries give for [key]. *)
Lemma fold_replace_single {A : Type} (name by_ : A -> string)
  (entries : list A) (key d pre post : string) :
  Forall (fun a => isName (name a) = true) entries ->
  (forall a, In a entries -> name a = key -> by_ a = d) ->
  (exists a, In a entries /\ name a = key) ->
  noOpenBrace pre = true -> noOpenBrace post = true ->
  noOpenBrace d = true ->
  fold_left (fun result a =>
               Str.replaceAll (placeholder (name a)) (by_ a) result)
            entries (pre ++ placeholder key ++ post)
  = pre ++ d ++ post.
Proof.
  intros Hnames Hby Hex Hpre Hpost Hd.
  assert (Hkey : isName key = true).
  { destruct Hex as (a & Hin & <-).
    rewrite Forall_forall in Hnames. now apply Hnames. }
  induction entries as [|a entries IH].
  - destruct Hex as (a & [] & _).
  - cbn [fold_left].
    apply Forall_cons_iff in Hnames as [Ha Hnames].
    destruct (String.eqb_spec (name a) key) as [E|NE].
    + rewrite E, (Hby a (or_introl eq_refl) E).
      rewrite (replaceAll_single _ _ _ _ Hpre (includes_noOpen _ _ Hpost)).
      apply fold_replaceAll_absent.
      apply Forall_forall. intros b _.
      apply includes_noOpen.
      now rewrite !noOpenBrace_app, Hpre, Hd, Hpost.
    + rewrite replaceAll_absent
        by now apply other_placeholder_absent.
      apply IH.
      * exact Hnames.
      * intros b Hb. apply Hby. now right.
      * destruct Hex as (b & [->|Hb] & Eb); [contradiction | eauto].
Qed.

End Replacement.

Section InterpolationResults.

Lemma placeholder_text_not_empty (key pre post : string) :
  Str.isEmpty (pre ++ placeholder key ++ post) = false.
Proof. destruct pre; reflexivity. Qed.

Lemma interpolate_string (s : string) (V : StateVars) (C : JsVal) :
  Str.isEmpty s = false ->
  interpolateVariables (JStr s) V C
  = JStr (replaceMetadata C (replaceCalculated V (replaceStateVars V s))).
Proof.
  intros H. cbn [interpolateVariables truthy]. now rewrite H.
Qed.


(** A text without an opening brace goes through the calculated-field and
    metadata passes unchanged. *)
Lemma later_passes_noOpen (text : string) (V : StateVars) (C : JsVal) :
  noOpenBrace text = true ->
  replaceMetadata C (replaceCalculated V text) = text.
Proof.
  intros H.
  rewrite replaceCalculated_resolved.
  - apply replaceMetadata_resolved.
    repeat constructor; now apply includes_noOpen.
  - apply Forall_forall. intros name _. now apply includes_noOpen.
Qed.

(** X1: a placeholder [{{KEY}}] of a state-variable key, standing between
    texts without an opening brace, is replaced by the display form of the
    variable's value (the string, the number's text, Yes or No, N/A), the
    surrounding text kept, whenever the keys are placeholder names and the
    display form holds no opening brace. *)
Theorem interpolateVariables_replaces_placeholder (V : StateVars)
  (key pre post : string) (C : JsVal) :
  Forall (fun k => isName k = true) (map fst V) ->
  In key (map fst V) ->
  noOpenBrace pre = true -> noOpenBrace post = true ->
  noOpenBrace (displayValue (lookup V key)) = true ->
  interpolateVariables (JStr (pre ++ placeholder key ++ post)) V C
  = JStr (pre ++ displayValue (lookup V key) ++ post).
Proof.
  intros Hnames Hin Hpre Hpost Hd.
  rewrite interpolate_string by apply placeholder_text_not_empty.
  assert (Hpass : replaceStateVars V (pre ++ placeholder key ++ post)
                  = pre ++ displayValue (lookup V key) ++ post).
  { unfold replaceStateVars.
    apply (fold_replace_single (fun k : string => k)
             (fun k => displayValue (lookup V k))); try assumption.
    - now intros k _ ->.
    - now exists key. }
  rewrite Hpass. f_equal. apply later_passes_noOpen.
  now rewrite !noOpenBrace_app, Hpre, Hd, Hpost.
Qed.

Lemma interpolateVariables_replaces_placeholder_witness :
  interpolateVariables (JStr "State tax here: {{HAS_STATE_TAX}}!")
    oklahoma lesson
  = JStr "State tax here: Yes!".
Proof.
  apply (interpolateVariables_replaces_placeholder oklahoma "HAS_STATE_TAX"
           "State tax here: " "!" lesson).
  - repeat constructor.
  - right. right. left. reflexivity.
  - reflexivity.
  - reflexivity.
  - reflexivity.
Defined.




End InterpolationResults.

(* ------------------------------------------------------------------ *)
(** ** Interpolation: key order and the metadata pass *)

Section MetadataPass.

Lemma cut_noOpen (key pre post : string) :
  noOpenBrace pre = true ->
  Str.cut (placeholder key) (pre ++ placeholder key ++ post)
  = Some (pre, post).
Proof.
  induction pre as [|c pre IH]; intros H.
  - exact (cut_prefix (placeholder key) post).
  - change (String c pre ++ placeholder key ++ post)
      with (String c (pre ++ placeholder key ++ post)).
    cbn [noOpenBrace] in H. apply andb_true_iff in H as [Hc Hpre].
    apply negb_true_iff in Hc.
    assert (Hs : Str.startsWith (String c (pre ++ placeholder key ++ post))
                   (placeholder key) = false).
    { rewrite placeholder_head. now apply startsWith_other_head. }
    cbn [Str.cut]. rewrite Hs. now rewrite (IH Hpre).
Qed.

Lemma getSubstitution_plain (m b a repl : string) :
  noDollar repl = true -> Str.getSubstitution m b a repl = repl.
Proof.
  induction repl as [|c r IH]; intros H; [reflexivity|].
  cbn [noDollar] in H. apply andb_true_iff in H as [Hc Hr].
  apply negb_true_iff in Hc.
  cbn [Str.getSubstitution]. rewrite Hc. now rewrite (IH Hr).
Qed.

Lemma getSubstitution_app (m b a x r : string) :
  noDollar x = true ->
  Str.getSubstitution m b a (x ++ r) = x ++ Str.getSubstitution m b a r.
Proof.
  induction x as [|c x IH]; intros H; [reflexivity|].
  change (String c x ++ r) with (String c (x ++ r)).
  cbn [noDollar] in H. apply andb_true_iff in H as [Hc Hx].
  apply negb_true_iff in Hc.
  cbn [Str.getSubstitution]. rewrite Hc. now rewrite (IH Hx).
Qed.






(** The metadata pass on a text whose first title placeholder follows a
    text without an opening brace. *)
Lemma title_pass (V : StateVars) (C : JsVal) (t pre post : string) :
  prop (prop C "metadata") "title" = JStr t ->
  noOpenBrace pre = true ->
  Forall (fun name =>
            Str.includes (pre ++ placeholder "CHAPTER_TITLE" ++ post)
              (placeholder name) = false)
         (map fst V ++ map fst CALCULATED_FIELDS)%list ->
  Str.includes
    (pre ++ Str.getSubstitution (placeholder "CHAPTER_TITLE") pre post t
         ++ post) (placeholder "CHAPTER_SUBTITLE") = false ->
  interpolateVariables (JStr (pre ++ placeholder "CHAPTER_TITLE" ++ post)) V C
  = JStr (pre ++ Str.getSubstitution (placeholder "CHAPTER_TITLE") pre post t
              ++ post).
Proof.
  intros Ht Hpre Hnone Hsub.
  apply Forall_app in Hnone as [HV Hcalc].
  rewrite interpolate_string by apply placeholder_text_not_empty.
  rewrite (replaceStateVars_resolved _ _ HV).
  rewrite (replaceCalculated_resolved _ _ Hcalc).
  f_equal. unfold replaceMetadata.
  assert (HC : truthy C && truthy (prop C "metadata") = true).
  { destruct C as [| | | | |items|props]; try discriminate Ht.
    destruct (prop (JObj props) "metadata"); try discriminate Ht.
    reflexivity. }
  rewrite HC. cbv zeta. rewrite Ht.
  assert (Hor : ToString (orVal (JStr t) (JStr "")) = t).
  { destruct t; reflexivity. }
  rewrite Hor.
  change "{{CHAPTER_TITLE}}" with (placeholder "CHAPTER_TITLE").
  change "{{CHAPTER_SUBTITLE}}" with (placeholder "CHAPTER_SUBTITLE").
  unfold Str.replace at 2. rewrite (cut_noOpen _ _ _ Hpre).
  now apply replace_absent.
Qed.

(** X4: only the first [{{CHAPTER_TITLE}}] of a text is replaced by the
    chapter title; whatever follows it, further title placeholders
    included, is kept as it is. *)
Theorem interpolateVariables_first_title_only (V : StateVars) (C : JsVal)
  (t pre post : string) :
  prop (prop C "metadata") "title" = JStr t ->
  noDollar t = true ->
  noOpenBrace pre = true ->
  Forall (fun name =>
            Str.includes (pre ++ placeholder "CHAPTER_TITLE" ++ post)
              (placeholder name) = false)
         (map fst V ++ map fst CALCULATED_FIELDS)%list ->
  Str.includes (pre ++ t ++ post) (placeholder "CHAPTER_SUBTITLE") = false ->
  interpolateVariables (JStr (pre ++ placeholder "CHAPTER_TITLE" ++ post)) V C
  = JStr (pre ++ t ++ post).
Proof.
  intros Ht Hd Hpre Hnone Hsub.
  rewrite (title_pass V C t pre post Ht Hpre Hnone);
    rewrite (getSubstitution_plain _ _ _ _ Hd); [reflexivity | exact Hsub].
Qed.

Lemma interpolateVariables_first_title_only_witness :
  interpolateVariables
    (JStr "<h1>{{CHAPTER_TITLE}}</h1><p>{{CHAPTER_TITLE}}</p>") oklahoma
    lesson
  = JStr "<h1>Income and Taxes</h1><p>{{CHAPTER_TITLE}}</p>".
Proof.
  apply (interpolateVariables_first_title_only oklahoma lesson
           "Income and Taxes" "<h1>" "</h1><p>{{CHAPTER_TITLE}}</p>").
  - reflexivity.
  - reflexivity.
  - reflexivity.
  - repeat (apply Forall_cons; [vm_compute; reflexivity|]). apply Forall_nil.
  - vm_compute. reflexivity.
Defined.

(** X5: the chapter title is read as a replacement pattern: a doubled
    dollar sign in it comes out as a single one. *)
Theorem interpolateVariables_title_dollars (V : StateVars) (C : JsVal)
  (x y pre post : string) :
  prop (prop C "metadata") "title" = JStr (x ++ "$$" ++ y) ->
  noDollar x = true -> noDollar y = true ->
  noOpenBrace pre = true ->
  Forall (fun name =>
            Str.includes (pre ++ placeholder "CHAPTER_TITLE" ++ post)
              (placeholder name) = false)
         (map fst V ++ map fst CALCULATED_FIELDS)%list ->
  Str.includes (pre ++ (x ++ "$" ++ y) ++ post)
    (placeholder "CHAPTER_SUBTITLE") = false ->
  interpolateVariables (JStr (pre ++ placeholder "CHAPTER_TITLE" ++ post)) V C
  = JStr (pre ++ (x ++ "$" ++ y) ++ post).
Proof.
  intros Ht Hx Hy Hpre Hnone Hsub.
  assert (G : forall m b a,
             Str.getSubstitution m b a (x ++ "$$" ++ y) = x ++ "$" ++ y).
  { intros m b a. rewrite (getSubstitution_app _ _ _ _ _ Hx).
    change ("$$" ++ y) with (String "$" (String "$" y)).
    cbn [Str.getSubstitution]. cbn [Ascii.eqb Bool.eqb].
    now rewrite (getSubstitution_plain _ _ _ _ Hy). }
  rewrite (title_pass V C _ pre post Ht Hpre Hnone); rewrite G;
    [reflexivity | exact Hsub].
Qed.

Lemma interpolateVariables_title_dollars_witness :
  interpolateVariables (JStr "<h1>{{CHAPTER_TITLE}}</h1>") oklahoma
    (JObj [ ("metadata", JObj [ ("title", JStr "Earning $$ and Taxes") ]) ])
  = JStr "<h1>Earning $ and Taxes</h1>".
Proof.
  apply (interpolateVariables_title_dollars oklahoma
           (JObj [ ("metadata",
                    JObj [ ("title", JStr "Earning $$ and Taxes") ]) ])
           "Earning " " and Taxes" "<h1>" "</h1>").
  - reflexivity.
  - reflexivity.
  - reflexivity.
  - reflexivity.
  - repeat (apply Forall_cons; [vm_compute; reflexivity|]). apply Forall_nil.
  - vm_compute. reflexivity.
Defined.

End MetadataPass.

(* ------------------------------------------------------------------ *)
(** ** When the renderers fail *)

Section RendererOutcome.

Variable V : StateVars.













Lemma scenario_succeeds (data : JsVal) :
  isNullish data = false -> succeeds (generateScenarioLayout data V) = true.
Proof.
  intros Hdata. unfold generateScenarioLayout.
  now rewrite !(get_defined _ _ Hdata).
Qed.

(** X9: a slide content without [layoutData] never makes the renderer
    fail, whatever layout it names. *)
Theorem generateLayoutContent_without_data (content : JsVal) :
  truthy (prop content "layoutData") = false ->
  succeeds (generateLayoutContent content V) = true.
Proof.
  intros Hdata. unfold generateLayoutContent.
  destruct (negb (truthy content) || negb (truthy (prop content "layout")));
    [reflexivity|].
  cbv zeta. unfold orVal. rewrite Hdata.
  repeat match goal with
         | |- succeeds (if ?c then _ else _) = true => destruct c
         end; reflexivity.
Qed.







End RendererOutcome.




Lemma generateLayoutContent_without_data_witness :
  succeeds (generateLayoutContent (JObj [("layout", JStr "takeaway-grid")])
              oklahoma) = true.
Proof.
  exact (generateLayoutContent_without_data oklahoma
           (JObj [("layout", JStr "takeaway-grid")]) eq_refl).
Defined.



(* ------------------------------------------------------------------ *)
(** ** What the validator reports *)

Section ValidatorFindings.

Lemma validateDocument_inv (data : JsVal) (found : Findings) :
  validateDocument data = Ok found ->
  exists e1 sl w2,
    checkMetadata data = Ok e1 /\ checkSlides data = Ok sl /\
    checkStateVariables data = Ok w2 /\
    found = {| errors := (e1 ++ fst sl)%list;
               warnings := (snd sl ++ w2)%list |}.
Proof.
  unfold validateDocument. intros H.
  destruct (checkMetadata data) as [e1|]; [|discriminate H].
  destruct (checkSlides data) as [sl|]; [|discriminate H].
  destruct (checkStateVariables data) as [w2|]; [|discriminate H].
  cbn [bindExc] in H.
  destruct (printResults data _); [|discriminate H].
  cbn [bindExc] in H. injection H as <-.
  now exists e1, sl, w2.
Qed.

Lemma validated_not_null (data : JsVal) (found : Findings) :
  validateDocument data = Ok found -> isNullish data = false.
Proof.
  intros H. apply validateDocument_inv in H as (e1 & _ & _ & H & _).
  unfold checkMetadata, get in H.
  destruct (isNullish data); [discriminate H | reflexivity].
Qed.

Lemma checkSlides_array (data : JsVal) (items : list JsVal)
  (sl : list string * list string) :
  prop data "slides" = JArr items ->
  checkSlides data = Ok sl ->
  fst sl = [] /\ checkSlideItems 0 items = Ok (snd sl).
Proof.
  intros Hitems H. unfold checkSlides, get in H.
  destruct (isNullish data); [discriminate H|].
  cbn [bindExc] in H. rewrite Hitems in H.
  cbn [truthy isArray negb orb] in H.
  destruct (checkSlideItems 0 items) as [w|]; [|discriminate H].
  cbn [bindExc] in H. injection H as <-. now split.
Qed.

Lemma checkSlideItems_inv (index : nat) (slide : JsVal)
  (rest : list JsVal) (w : list string) :
  checkSlideItems index (slide :: rest) = Ok w ->
  exists more,
    checkSlideItems (S index) rest = Ok more /\
    w = ((if negb (truthy (prop slide "number"))
          then [slideWarning index "number"] else []) ++
         (if negb (truthy (prop slide "type"))
          then [slideWarning index "type"] else []) ++
         (if negb (truthy (prop slide "content"))
          then [slideWarning index "content"] else []) ++
         more)%list.
Proof.
  cbn [checkSlideItems]. unfold get.
  destruct (isNullish slide); [discriminate|].
  cbn [bindExc].
  destruct (checkSlideItems (S index) rest) as [more|]; [|discriminate].
  cbn [bindExc]. intros H. injection H as <-. now exists more.
Qed.

(** The slide loop warns about every falsy field, under the slide's
    position counted from the start index. *)
Lemma checkSlideItems_warns (what : string) (items : list JsVal) :
  In what slideFields ->
  forall (index i : nat) (slide : JsVal) (w : list string),
    checkSlideItems index items = Ok w ->
    nth_error items i = Some slide ->
    truthy (prop slide what) = false ->
    In (slideWarning (index + i) what) w.
Proof.
  intros Hwhat.
  induction items as [|first rest IH]; intros index i slide w Hw Hnth Hf.
  - destruct i; discriminate Hnth.
  - apply checkSlideItems_inv in Hw as (more & Hmore & ->).
    destruct i as [|i].
    + cbn [nth_error] in Hnth. injection Hnth as ->.
      rewrite Nat.add_0_r.
      destruct Hwhat as [<-|[<-|[<-|[]]]]; rewrite Hf; cbn [negb];
        rewrite !in_app_iff; cbn [In]; tauto.
    + cbn [nth_error] in Hnth.
      rewrite !in_app_iff. do 3 right.
      replace (index + S i) with (S index + i) by lia.
      now apply (IH (S index) i slide more).
Qed.

(** The slide loop pushes no warning exactly when every slide is
    complete. *)
Lemma checkSlideItems_silent (items : list JsVal) :
  forall (index : nat) (w : list string),
    checkSlideItems index items = Ok w ->
    (w = [] <-> forallb completeSlide items = true).
Proof.
  induction items as [|slide rest IH]; intros index w Hw.
  - cbn [checkSlideItems] in Hw. injection Hw as <-. now split.
  - apply checkSlideItems_inv in Hw as (more & Hmore & ->).
    specialize (IH (S index) more Hmore).
    cbn [forallb]. unfold completeSlide.
    destruct (truthy (prop slide "number")); cbn [negb andb app];
      [|split; discriminate].
    destruct (truthy (prop slide "type")); cbn [negb andb app];
      [|split; discriminate].
    destruct (truthy (prop slide "content")); cbn [negb andb app];
      [|split; discriminate].
    exact IH.
Qed.

Lemma complete_not_null (items : list JsVal) :
  forallb completeSlide items = true ->
  forallb (fun slide => negb (isNullish slide)) items = true.
Proof.
  induction items as [|slide rest IH]; [reflexivity|].
  cbn [forallb]. intros H. apply andb_true_iff in H as [Hs Hrest].
  rewrite (IH Hrest), andb_true_r.
  destruct slide; try reflexivity; discriminate Hs.
Qed.

(** X14: a document with no hard error whose [hasStateVariables] is falsy
    is validated without any finding exactly when every slide has a truthy
    number, type and content; placeholders in its text are not looked
    at. *)
Theorem validateDocument_clean_iff (data : JsVal) (items : list JsVal) :
  noHardError data = true ->
  truthy (prop (prop data "metadata") "hasStateVariables") = false ->
  prop data "slides" = JArr items ->
  (validateDocument data = Ok {| errors := []; warnings := [] |}
   <-> forallb completeSlide items = true).
Proof.
  intros Hhard Hflag Hitems.
  assert (Hdata : isNullish data = false).
  { destruct data; try reflexivity; discriminate Hhard. }
  assert (Hsv : checkStateVariables data = Ok []).
  { unfold checkStateVariables.
    rewrite (get_defined _ _ Hdata). cbn [bindExc].
    now rewrite Hflag, andb_false_r. }
  split.
  - intros H.
    apply validateDocument_inv in H as (e1 & sl & w2 & _ & Hsl & Hw2 & E).
    destruct (checkSlides_array data items sl Hitems Hsl) as [_ Hloop].
    injection E as _ Ew. symmetry in Ew.
    apply app_eq_nil in Ew as [Ew _].
    now apply (checkSlideItems_silent items 0 (snd sl) Hloop).
  - intros Hall.
    destruct (checkMetadata_outcome data Hdata) as (e1 & He1 & Hnil).
    unfold noHardError in Hhard. cbv zeta in Hhard.
    apply andb_true_iff in Hhard as [Hmeta Harr].
    rewrite Hmeta in Hnil.
    destruct e1; [|discriminate Hnil].
    destruct (checkSlideItems_ok 0 items (complete_not_null items Hall))
      as [w Hw].
    assert (Hnone : w = [])
      by now apply (checkSlideItems_silent items 0 w Hw).
    subst w.
    unfold validateDocument. rewrite He1. cbn [bindExc].
    unfold checkSlides. rewrite (get_defined _ _ Hdata). cbn [bindExc].
    rewrite Hitems. cbn [truthy isArray negb orb]. rewrite Hw.
    cbn [bindExc]. rewrite Hsv. cbn [bindExc fst snd app].
    unfold printResults. cbn [errors warnings isNil andb].
    rewrite !(get_defined _ _ Hdata). cbn [bindExc].
    rewrite Hitems. cbn [get isNullish bindExc].
    apply andb_true_iff in Hmeta as [Hmeta _].
    apply andb_true_iff in Hmeta as [Hmeta _].
    apply andb_true_iff in Hmeta as [Hmeta _].
    now rewrite (get_defined _ _ (truthy_not_nullish _ Hmeta)).
Qed.

Lemma validateDocument_clean_iff_witness :
  validateDocument completeDocument = Ok {| errors := []; warnings := [] |}.
Proof.
  exact (proj2 (validateDocument_clean_iff completeDocument [slideOne]
                  eq_refl eq_refl eq_refl) eq_refl).
Defined.

(** X15: when the checks run to their end, a slide whose number, type or
    content is falsy is warned about under its position in the array
    counted from 0, not under its slide number; a slide numbered 0 counts
    as having no number. *)
Theorem validateDocument_slide_warning (data : JsVal) (found : Findings)
  (items : list JsVal) (i : nat) (slide : JsVal) (what : string) :
  validateDocument data = Ok found ->
  prop data "slides" = JArr items ->
  nth_error items i = Some slide ->
  In what slideFields ->
  truthy (prop slide what) = false ->
  In (slideWarning i what) (warnings found).
Proof.
  intros Hfound Hitems Hnth Hwhat Hfalsy.
  apply validateDocument_inv in Hfound as (e1 & sl & w2 & _ & Hsl & _ & ->).
  destruct (checkSlides_array data items sl Hitems Hsl) as [_ Hloop].
  cbn [warnings]. apply in_or_app. left.
  exact (checkSlideItems_warns what items Hwhat 0 i slide (snd sl)
           Hloop Hnth Hfalsy).
Qed.

Lemma validateDocument_slide_warning_witness :
  In "Slide 1: missing number"
     (warnings {| errors := [];
                  warnings := [ "Slide 1: missing number";
                                "Slide 1: missing content" ] |}).
Proof.
  refine (validateDocument_slide_warning zeroNumberedDocument
            {| errors := [];
               warnings := [ "Slide 1: missing number";
                             "Slide 1: missing content" ] |}
            [ slideOne;
              JObj [ ("number", JNum (Num.ofZ 0)); ("type", JStr "hook") ] ]
            1
            (JObj [ ("number", JNum (Num.ofZ 0)); ("type", JStr "hook") ])
            "number" _ eq_refl eq_refl _ eq_refl).
  - vm_compute. reflexivity.
  - left. reflexivity.
Defined.

Lemma append_inv_tail (a b s : string) : a ++ s = b ++ s -> a = b.
Proof.
  revert b.
  induction a as [|c a IH]; intros [|d b] H.
  - reflexivity.
  - apply (f_equal String.length) in H.
    cbn [append String.length] in H. rewrite length_append in H. lia.
  - apply (f_equal String.length) in H.
    cbn [append String.length] in H. rewrite length_append in H. lia.
  - cbn [append] in H. injection H as -> H. now rewrite (IH b H).
Qed.

Lemma undeclaredWarning_inj (v v' : string) :
  undeclaredWarning v = undeclaredWarning v' -> v = v'.
Proof.
  unfold undeclaredWarning. intros H.
  cbn [append] in H.
  repeat match type of H with
         | String _ _ = String _ _ => injection H as H
         end.
  exact (append_inv_tail _ _ _ H).
Qed.

Lemma checkSlideItems_shape (items : list JsVal) :
  forall (index : nat) (w : list string) (x : string),
    checkSlideItems index items = Ok w -> In x w ->
    exists i what, x = slideWarning i what.
Proof.
  induction items as [|slide rest IH]; intros index w x Hw Hx.
  - cbn [checkSlideItems] in Hw. injection Hw as <-. destruct Hx.
  - apply checkSlideItems_inv in Hw as (more & Hmore & ->).
    rewrite !in_app_iff in Hx.
    destruct Hx as [Hx|[Hx|[Hx|Hx]]].
    + destruct (negb (truthy (prop slide "number")));
        [destruct Hx as [<-|[]]; eauto | destruct Hx].
    + destruct (negb (truthy (prop slide "type")));
        [destruct Hx as [<-|[]]; eauto | destruct Hx].
    + destruct (negb (truthy (prop slide "content")));
        [destruct Hx as [<-|[]]; eauto | destruct Hx].
    + exact (IH (S index) more x Hmore Hx).
Qed.

Lemma setAdd_In (set : list string) (x v : string) :
  In v (setAdd set x) <-> In v set \/ v = x.
Proof.
  unfold setAdd.
  destruct (existsb (String.eqb x) set) eqn:E.
  - apply existsb_eqb_In in E. split; [tauto|].
    intros [H| ->]; assumption.
  - rewrite in_app_iff. cbn [In]. intuition congruence.
Qed.

Lemma fold_setAdd_In (names set : list string) (v : string) :
  In v (fold_left setAdd names set) <-> In v set \/ In v names.
Proof.
  revert set.
  induction names as [|x names IH]; intros set; cbn [fold_left In].
  - tauto.
  - rewrite IH, setAdd_In. split; intros H; intuition auto.
Qed.

Lemma setHas_In (declared : list JsVal) (v : string) :
  setHas declared v = true <-> In (JStr v) declared.
Proof.
  unfold setHas. rewrite existsb_exists. split.
  - intros (x & Hx & E). destruct x; try discriminate E.
    apply String.eqb_eq in E. now subst.
  - intros H. exists (JStr v). split; [exact H | apply String.eqb_refl].
Qed.

(** X16: when [hasStateVariables] is truthy and the checks run to their
    end, a placeholder name found in the serialized document is warned
    about as undeclared exactly when it is neither listed in
    [stateVariablesUsed] nor the name of a calculated field. *)
Theorem validateDocument_undeclared_warning (data : JsVal)
  (found : Findings) (declared : list JsVal) (v : string) :
  validateDocument data = Ok found ->
  truthy (prop (prop data "metadata") "hasStateVariables") = true ->
  prop (prop data "metadata") "stateVariablesUsed" = JArr declared ->
  isToken (showOpt (JSON_stringify data)) v ->
  (In (undeclaredWarning v) (warnings found)
   <-> ~ In (JStr v) declared /\ isCalculatedField v = false).
Proof.
  intros Hfound Hflag Hdecl Htoken.
  pose proof (validated_not_null data found Hfound) as Hdata.
  apply validateDocument_inv in Hfound as (e1 & sl & w2 & _ & Hsl & Hw2 & ->).
  cbn [warnings].
  assert (Hmeta : truthy (prop data "metadata") = true)
    by exact (truthy_prop_truthy _ _ Hflag).
  unfold checkStateVariables in Hw2.
  rewrite (get_defined _ _ Hdata) in Hw2. cbn [bindExc] in Hw2.
  rewrite Hmeta, Hflag in Hw2. cbn [andb] in Hw2. cbv zeta in Hw2.
  rewrite Hdecl in Hw2. cbn [orVal truthy newSet bindExc] in Hw2.
  injection Hw2 as <-.
  set (contentString := showOpt (JSON_stringify data)) in *.
  set (foundVars := fold_left setAdd (placeholderNames contentString) []).
  assert (Hin : In v foundVars).
  { apply fold_setAdd_In. right. now apply placeholderNames_spec. }
  assert (Hcond : forall x,
             negb (setHas declared x) && negb (isCalculatedField x) = true
             <-> ~ In (JStr x) declared /\ isCalculatedField x = false).
  { intros x. rewrite andb_true_iff, !negb_true_iff.
    rewrite <- (setHas_In declared x).
    destruct (setHas declared x); split; intros [H1 H2]; split;
      congruence. }
  rewrite !in_app_iff, in_flat_map.
  split.
  - intros [Hslide | [Hhead | (x & Hx & Hwarn)]].
    + unfold checkSlides in Hsl.
      rewrite (get_defined _ _ Hdata) in Hsl. cbn [bindExc] in Hsl.
      destruct (negb (truthy (prop data "slides")) ||
                negb (isArray (prop data "slides"))).
      { injection Hsl as <-. destruct Hslide. }
      destruct (prop data "slides") as [| | | | |items|];
        try (injection Hsl as <-; destruct Hslide).
      destruct (checkSlideItems 0 items) as [w|] eqn:Hw;
        [|discriminate Hsl].
      cbn [bindExc] in Hsl. injection Hsl as <-. cbn [snd] in Hslide.
      destruct (checkSlideItems_shape items 0 w _ Hw Hslide)
        as (i & what & E).
      discriminate E.
    + destruct foundVars; [destruct Hhead as [E|[]]; discriminate E
                          | destruct Hhead].
    + destruct (negb (setHas declared x) && negb (isCalculatedField x))
        eqn:Hc; [|destruct Hwarn].
      destruct Hwarn as [E|[]].
      apply undeclaredWarning_inj in E. subst x.
      now apply Hcond.
  - intros H. right. right. exists v. split; [exact Hin|].
    apply Hcond in H. rewrite H. now left.
Qed.

Lemma validateDocument_undeclared_warning_witness :
  In (undeclaredWarning "MIN_WAGE")
     (warnings {| errors := [];
                  warnings := [undeclaredWarning "MIN_WAGE"] |})
  /\ ~ In (undeclaredWarning "CALCULATED_SDI_MONTHLY")
          (warnings {| errors := [];
                       warnings := [undeclaredWarning "MIN_WAGE"] |}).
Proof.
  assert (Hfound : validateDocument flaggedDocument
                   = Ok {| errors := [];
                           warnings := [undeclaredWarning "MIN_WAGE"] |})
    by (vm_compute; reflexivity).
  split.
  - apply (proj2 (validateDocument_undeclared_warning flaggedDocument _
                    [JStr "STATE_NAME"] "MIN_WAGE" Hfound eq_refl eq_refl
                    (conj eq_refl eq_refl))).
    split; [|reflexivity].
    intros [H|[]]. discriminate H.
  - intros H.
    apply (proj1 (validateDocument_undeclared_warning flaggedDocument _
                    [JStr "STATE_NAME"] "CALCULATED_SDI_MONTHLY" Hfound
                    eq_refl eq_refl (conj eq_refl eq_refl))) in H.
    destruct H as [_ H]. discriminate H.
Defined.

End ValidatorFindings.

(* ------------------------------------------------------------------ *)
(** ** The extractor: detection and what it hands to the validator *)

Section Extractor.

Lemma includes_trans (s a b : string) :
  Str.includes s a = true -> Str.includes a b = true ->
  Str.includes s b = true.
Proof.
  intros Ha Hb.
  apply includes_iff in Ha as (p & r & ->).
  apply includes_iff in Hb as (p' & r' & ->).
  apply includes_iff. exists (p ++ p'), (r' ++ r).
  now rewrite !append_assoc.
Qed.

(** X17: detection goes by plain text search: when a name is recorded,
    every known variable name contained in it is recorded too. *)
Theorem detectIn_contained_names (contentStr name known : string) :
  In name (detectIn contentStr) ->
  In known STATE_VARIABLES ->
  Str.includes name known = true ->
  In known (detectIn contentStr).
Proof.
  intros Hname Hknown Hsub.
  destruct (detectIn_spec contentStr) as [_ Hspec].
  apply Hspec. left. split; [exact Hknown|].
  apply Hspec in Hname as [[_ Hin] | [_ Hin]].
  - exact (includes_trans _ _ _ Hin Hsub).
  - exact (includes_trans _ _ _ (includes_placeholder _ _ Hin) Hsub).
Qed.

Lemma detectIn_contained_names_witness :
  In "MAJOR_CITY" (detectIn "Visit {{MAJOR_CITY_1}} first").
Proof.
  apply (detectIn_contained_names "Visit {{MAJOR_CITY_1}} first"
           "MAJOR_CITY_1" "MAJOR_CITY").
  - vm_compute. tauto.
  - vm_compute. tauto.
  - reflexivity.
Defined.

Lemma convertHtmlToJson_output (lChapter mainTitle subtitle : string)
  (slides : list JsVal) :
  exists used,
    convertHtmlToJson lChapter mainTitle subtitle slides
    = Ok (jsonOutputOf lChapter mainTitle subtitle slides
            (negb (isNil used)) used).
Proof.
  unfold convertHtmlToJson, detectStateVariables. cbv zeta.
  destruct (serializeJSON_defined "" ""
              (jsonOutputOf lChapter mainTitle subtitle slides false []))
    as [text Htext]; [discriminate|].
  unfold JSON_stringify. rewrite Htext. cbn [bindExc]. eauto.
Qed.

(** X18: what the extractor builds passes the generator's validation
    exactly when the chapter id and the main title are not empty and no
    slide is [null]; the recorded state variables never make it fail. *)
Theorem convertHtmlToJson_validates (lChapter mainTitle subtitle : string)
  (slides : list JsVal) :
  exists output,
    convertHtmlToJson lChapter mainTitle subtitle slides = Ok output
    /\ validateContentJSON (Ok output)
       = negb (Str.isEmpty lChapter) && negb (Str.isEmpty mainTitle) &&
         forallb (fun slide => negb (isNullish slide)) slides.
Proof.
  destruct (convertHtmlToJson_output lChapter mainTitle subtitle slides)
    as [used Hout].
  eexists. split; [exact Hout|].
  rewrite validateContentJSON_outcome.
  unfold noHardError, checksComplete, slidesReadable, declaredReadable.
  cbv zeta.
  change (prop (jsonOutputOf lChapter mainTitle subtitle slides
                  (negb (isNil used)) used) "metadata")
    with (metadataOf lChapter mainTitle subtitle (List.length slides)
            (negb (isNil used)) used).
  change (prop (jsonOutputOf lChapter mainTitle subtitle slides
                  (negb (isNil used)) used) "slides")
    with (JArr slides).
  change (prop (metadataOf lChapter mainTitle subtitle (List.length slides)
                  (negb (isNil used)) used) "lChapter")
    with (JStr lChapter).
  change (prop (metadataOf lChapter mainTitle subtitle (List.length slides)
                  (negb (isNil used)) used) "title")
    with (JStr mainTitle).
  change (prop (metadataOf lChapter mainTitle subtitle (List.length slides)
                  (negb (isNil used)) used) "hasStateVariables")
    with (JBool (negb (isNil used))).
  change (prop (metadataOf lChapter mainTitle subtitle (List.length slides)
                  (negb (isNil used)) used) "stateVariablesUsed")
    with (JArr (map JStr used)).
  cbn [truthy isUndefined isArray isNullish negb andb orVal isIterable].
  destruct (negb (isNil used)); cbn [andb];
    now rewrite !andb_true_r.
Qed.

End Extractor.

(* ------------------------------------------------------------------ *)
(** ** The extractor's text helpers *)

Section TextHelpers.

Lemma collapseSpaces_spaced (s : string) :
  forall b, spaced b (collapseSpaces b s) = true.
Proof.
  induction s as [|c s IH]; intros b; [reflexivity|].
  cbn [collapseSpaces].
  destruct (Str.isWhiteSpace c) eqn:Hc.
  - destruct b; [apply IH|].
    cbn [spaced]. change (Str.isWhiteSpace " ") with true.
    cbn [Ascii.eqb Bool.eqb negb andb]. apply IH.
  - cbn [spaced]. rewrite Hc. apply IH.
Qed.

Lemma collapseSpaces_fixed (s : string) :
  forall b, spaced b s = true -> collapseSpaces b s = s.
Proof.
  induction s as [|c s IH]; intros b H; [reflexivity|].
  cbn [spaced] in H. cbn [collapseSpaces].
  destruct (Str.isWhiteSpace c).
  - apply andb_true_iff in H as [H Hs].
    apply andb_true_iff in H as [Hc Hb].
    apply Ascii.eqb_eq in Hc. subst c.
    apply negb_true_iff in Hb. subst b.
    now rewrite (IH true Hs).
  - now rewrite (IH false H).
Qed.

Lemma cleanFrom_spaced (s : string) :
  forall b, cleanFrom b s = true -> spaced b s = true.
Proof.
  induction s as [|c s IH]; intros b H; [reflexivity|].
  cbn [cleanFrom] in H. cbn [spaced].
  destruct (Str.isWhiteSpace c).
  - apply andb_true_iff in H as [H Hs]. rewrite H. now apply IH.
  - now apply IH.
Qed.

Lemma spaced_weaken (s : string) :
  spaced true s = true -> spaced false s = true.
Proof.
  destruct s as [|c s]; [reflexivity|]. cbn [spaced].
  destruct (Str.isWhiteSpace c); [|trivial].
  rewrite andb_false_r. discriminate.
Qed.

Lemma trimStart_spaced (s : string) :
  spaced false s = true -> spaced true (Str.trimStart s) = true.
Proof.
  destruct s as [|c s]; [reflexivity|].
  cbn [spaced Str.trimStart].
  destruct (Str.isWhiteSpace c) eqn:Hc.
  - intros H. apply andb_true_iff in H as [_ Hs].
    destruct s as [|d s]; [reflexivity|].
    cbn [spaced] in Hs. cbn [Str.trimStart].
    destruct (Str.isWhiteSpace d) eqn:Hd.
    + rewrite andb_false_r in Hs. discriminate Hs.
    + cbn [spaced]. now rewrite Hd.
  - intros H. cbn [spaced]. now rewrite Hc.
Qed.

Lemma trimEnd_clean (s : string) :
  forall b, spaced b s = true ->
            Str.trimEnd s = "" \/ cleanFrom b (Str.trimEnd s) = true.
Proof.
  induction s as [|c s IH]; intros b H; [now left|].
  cbn [spaced] in H. cbn [Str.trimEnd].
  destruct (Str.isWhiteSpace c) eqn:Hc.
  - apply andb_true_iff in H as [H Hs].
    destruct (IH true Hs) as [E|Hclean].
    + rewrite E. now left.
    + destruct (Str.trimEnd s) as [|d t] eqn:E; [discriminate Hclean|].
      right. cbn [cleanFrom]. rewrite Hc, H. exact Hclean.
  - destruct (IH false H) as [E|Hclean].
    + rewrite E. right. cbn [cleanFrom]. now rewrite Hc.
    + destruct (Str.trimEnd s) as [|d t] eqn:E.
      * right. cbn [cleanFrom]. now rewrite Hc.
      * right. cbn [cleanFrom]. rewrite Hc. exact Hclean.
Qed.

Lemma trimStart_fixed (s : string) :
  cleanFrom true s = true -> Str.trimStart s = s.
Proof.
  destruct s as [|c s]; [reflexivity|].
  cbn [cleanFrom Str.trimStart].
  destruct (Str.isWhiteSpace c); [|reflexivity].
  rewrite andb_false_r. discriminate.
Qed.

Lemma trimEnd_fixed (s : string) :
  forall b, cleanFrom b s = true -> Str.trimEnd s = s.
Proof.
  induction s as [|c s IH]; intros b H; [reflexivity|].
  cbn [cleanFrom] in H. cbn [Str.trimEnd].
  destruct (Str.isWhiteSpace c) eqn:Hc.
  - apply andb_true_iff in H as [_ Hs].
    rewrite (IH true Hs).
    destruct s; [discriminate Hs | reflexivity].
  - rewrite (IH false H). now destruct s.
Qed.

Lemma cleanText_fixed (s : string) :
  isClean s = true -> cleanText (Some s) = s.
Proof.
  unfold isClean, cleanText.
  destruct s as [|c s]; [reflexivity|].
  cbn [Str.isEmpty orb]. intros H.
  rewrite (collapseSpaces_fixed _ false
             (spaced_weaken _ (cleanFrom_spaced _ _ H))).
  unfold Str.trim. rewrite (trimStart_fixed _ H).
  exact (trimEnd_fixed _ _ H).
Qed.

Lemma cleanText_isClean (text : option string) :
  isClean (cleanText text) = true.
Proof.
  destruct text as [s|]; [|reflexivity].
  unfold cleanText.
  destruct (Str.isEmpty s); [reflexivity|].
  unfold Str.trim, isClean.
  destruct (trimEnd_clean _ true
              (trimStart_spaced _ (collapseSpaces_spaced s false)))
    as [-> | H]; [reflexivity|].
  rewrite H. apply orb_true_r.
Qed.

(** X19: [cleanText] returns a text with no white space at either end and
    only single spaces inside, it returns such a text as it is, and so
    cleaning twice is cleaning once. *)
Theorem cleanText_normal_form (text : option string) :
  isClean (cleanText text) = true
  /\ (forall s, isClean s = true -> cleanText (Some s) = s)
  /\ cleanText (Some (cleanText text)) = cleanText text.
Proof.
  split; [apply cleanText_isClean|].
  split; [apply cleanText_fixed|].
  apply cleanText_fixed, cleanText_isClean.
Qed.

(** X26: [extractInnerHTML] normalises an element's markup as [cleanText]
    normalises text: the two agree on every input, so the markup it
    returns has no white space at either end and single spaces inside. *)
Theorem extractInnerHTML_as_cleanText (innerHTML : option string) :
  extractInnerHTML innerHTML = cleanText innerHTML
  /\ isClean (extractInnerHTML innerHTML) = true.
Proof.
  assert (E : extractInnerHTML innerHTML = cleanText innerHTML).
  { destruct innerHTML as [[|c s]|]; reflexivity. }
  split; [exact E|]. rewrite E. apply cleanText_isClean.
Qed.





End TextHelpers.

(* ------------------------------------------------------------------ *)
(** ** The extractor's batch loop *)

Section BatchLoop.

Variable chapter : option string.
Variable convert : string -> Exc unit.

Lemma count_cons (p : string -> bool) (f : string) (fs : list string) :
  count p (f :: fs) = (if p f then 1 else 0) + count p fs.
Proof. unfold count. cbn [filter]. now destruct (p f). Qed.

Lemma step_counts (c : Batch.Counters) (f : string) :
  Batch.processed (Batch.step chapter convert c f)
  = Batch.processed c + (if isConverted chapter convert f then 1 else 0)
  /\ Batch.skipped (Batch.step chapter convert c f)
     = Batch.skipped c + (if isPassedOver chapter f then 1 else 0)
  /\ Batch.errors (Batch.step chapter convert c f)
     = Batch.errors c + (if isFailed chapter convert f then 1 else 0).
Proof.
  unfold Batch.step, isConverted, isFailed, isPassedOver, selected, isSkipped.
  destruct (Batch.fileChapter f) as [lChapter|];
    [|cbn [andb]; repeat split; lia].
  destruct (Batch.otherChapterWanted chapter lChapter);
    [cbn [negb andb]; repeat split; lia|].
  destruct (existsb (String.eqb lChapter) Batch.skipExisting);
    [cbn [negb andb Batch.processed Batch.skipped Batch.errors];
     repeat split; lia|].
  destruct (convert f);
    cbn [negb andb succeeds Batch.processed Batch.skipped Batch.errors];
    repeat split; lia.
Qed.

Lemma loop_counts (fs : list string) :
  forall c : Batch.Counters,
    Batch.processed (fold_left (Batch.step chapter convert) fs c)
    = Batch.processed c + count (isConverted chapter convert) fs
    /\ Batch.skipped (fold_left (Batch.step chapter convert) fs c)
       = Batch.skipped c + count (isPassedOver chapter) fs
    /\ Batch.errors (fold_left (Batch.step chapter convert) fs c)
       = Batch.errors c + count (isFailed chapter convert) fs.
Proof.
  induction fs as [|f fs IH]; intros c.
  - unfold count. cbn [fold_left filter List.length]. repeat split; lia.
  - cbn [fold_left]. rewrite !count_cons.
    destruct (IH (Batch.step chapter convert c f)) as (P & S & E).
    destruct (step_counts c f) as (P1 & S1 & E1).
    rewrite P, S, E, P1, S1, E1. repeat split; lia.
Qed.

Lemma count_insertSorted (p : string -> bool) (f : string)
  (fs : list string) :
  count p (Batch.insertSorted f fs) = count p (f :: fs).
Proof.
  induction fs as [|x fs IH]; [reflexivity|].
  cbn [Batch.insertSorted].
  destruct (String.leb f x); [reflexivity|].
  rewrite count_cons, IH, !count_cons. lia.
Qed.

Lemma count_sort (p : string -> bool) (fs : list string) :
  count p (Batch.sort fs) = count p fs.
Proof.
  induction fs as [|f fs IH]; [reflexivity|].
  unfold Batch.sort. cbn [fold_right].
  rewrite count_insertSorted, !count_cons.
  unfold Batch.sort in IH. now rewrite IH.
Qed.

Lemma count_filter (p q : string -> bool) (fs : list string) :
  count p (filter q fs) = count (fun f => q f && p f) fs.
Proof.
  induction fs as [|f fs IH]; [reflexivity|].
  cbn [filter]. rewrite count_cons.
  destruct (q f); cbn [andb]; [rewrite count_cons|]; now rewrite IH.
Qed.

Lemma count_htmlFiles (p : string -> bool) (entries : list string) :
  count p (Batch.htmlFiles entries)
  = count (fun f => isChapterFile f && p f) entries.
Proof.
  unfold Batch.htmlFiles. rewrite count_sort. apply count_filter.
Qed.

Lemma count_none (p : string -> bool) (fs : list string) :
  (forall f, p f = false) -> count p fs = 0.
Proof.
  intros H. induction fs as [|f fs IH]; [reflexivity|].
  now rewrite count_cons, H, IH.
Qed.

Lemma count_split (p a b c : string -> bool) (fs : list string) :
  (forall f, (if p f then 1 else 0)
             = (if a f then 1 else 0) + (if b f then 1 else 0) +
               (if c f then 1 else 0)) ->
  count p fs = count a fs + count b fs + count c fs.
Proof.
  intros H. induction fs as [|f fs IH]; [reflexivity|].
  rewrite !count_cons, H, IH. lia.
Qed.

(** X21: the batch loop counts every listed file it takes up exactly once:
    as processed when its conversion succeeds, as an error when it fails,
    as skipped when its chapter is on the skip list; a failing file does
    not keep the files after it from being converted. *)
Theorem processAllFiles_counts (dirEntries : list string) :
  Batch.processed (Batch.processAllFiles dirEntries chapter convert)
  = count (fun f => isChapterFile f && isConverted chapter convert f) dirEntries
  /\ Batch.skipped (Batch.processAllFiles dirEntries chapter convert)
     = count (fun f => isChapterFile f && isPassedOver chapter f) dirEntries
  /\ Batch.errors (Batch.processAllFiles dirEntries chapter convert)
     = count (fun f => isChapterFile f && isFailed chapter convert f) dirEntries
  /\ Batch.processed (Batch.processAllFiles dirEntries chapter convert) +
     Batch.skipped (Batch.processAllFiles dirEntries chapter convert) +
     Batch.errors (Batch.processAllFiles dirEntries chapter convert)
     = count (fun f => isChapterFile f && selected chapter f) dirEntries.
Proof.
  unfold Batch.processAllFiles.
  destruct (loop_counts (Batch.htmlFiles dirEntries)
              {| Batch.processed := 0; Batch.skipped := 0;
                 Batch.errors := 0 |}) as (P & S & E).
  cbn [Batch.processed Batch.skipped Batch.errors plus] in P, S, E.
  rewrite P, S, E, !count_htmlFiles.
  repeat split.
  symmetry. apply count_split. intros f.
  unfold isConverted, isPassedOver, isFailed.
  destruct (isChapterFile f), (selected chapter f), (isSkipped f),
    (succeeds (convert f)); reflexivity.
Qed.

End BatchLoop.

Lemma skip_listed_only (wanted f : string) :
  In wanted Batch.skipExisting ->
  selected (Some wanted) f && negb (isSkipped f) = false.
Proof.
  intros Hin. unfold selected, isSkipped.
  destruct (Batch.fileChapter f) as [lChapter|]; [|reflexivity].
  unfold Batch.otherChapterWanted.
  destruct (String.eqb_spec wanted lChapter) as [<-|ne].
  - apply (existsb_eqb_In wanted) in Hin. rewrite Hin.
    apply andb_false_r.
  - assert (Hne : Str.isEmpty wanted = false).
    { destruct Hin as [<-|[<-|[]]]; reflexivity. }
    rewrite Hne. reflexivity.
Qed.

(** X22: when the chapter asked for is on the skip list, nothing is
    converted: no file is processed and none is counted as an error,
    whatever the directory holds. *)
Theorem processAllFiles_skip_listed_chapter (wanted : string)
  (convert : string -> Exc unit) (dirEntries : list string) :
  In wanted Batch.skipExisting ->
  Batch.processed (Batch.processAllFiles dirEntries (Some wanted) convert) = 0
  /\ Batch.errors (Batch.processAllFiles dirEntries (Some wanted) convert)
     = 0.
Proof.
  intros Hin. unfold Batch.processAllFiles.
  destruct (loop_counts (Some wanted) convert (Batch.htmlFiles dirEntries)
              {| Batch.processed := 0; Batch.skipped := 0;
                 Batch.errors := 0 |}) as (P & _ & E).
  rewrite P, E. cbn [Batch.processed Batch.errors plus].
  split; apply count_none; intros f.
  - unfold isConverted. now rewrite (skip_listed_only wanted f Hin).
  - unfold isFailed. now rewrite (skip_listed_only wanted f Hin).
Qed.

Lemma processAllFiles_skip_listed_chapter_witness :
  Batch.processed (Batch.processAllFiles sourceDir (Some "L-03")
                     convertSample) = 0
  /\ Batch.errors (Batch.processAllFiles sourceDir (Some "L-03")
                     convertSample) = 0.
Proof.
  apply (processAllFiles_skip_listed_chapter "L-03" convertSample sourceDir).
  right. left. reflexivity.
Defined.

(* ------------------------------------------------------------------ *)
(** ** The deck text, table cells and unreadable rates *)

Section DeckText.

Lemma replace_cut (pat repl s before after : string) :
  Str.cut pat s = Some (before, after) ->
  Str.replace pat repl s
  = before ++ Str.getSubstitution pat before after repl ++ after.
Proof. intros H. unfold Str.replace. now rewrite H. Qed.

(** X23: when the slides' markup holds no dollar sign and the template
    with the slides in place holds nothing to interpolate, the deck is the
    template with the markup in place of the first slides marker, and
    with the mapped chapter in place of the first [{{STATE_CHAPTER}}]. *)
Theorem generateSlideDeck_inserts_slides
  (template pre post slidesHTML : string) (C : JsVal) (V : StateVars)
  (mappingContent lChapter : string) :
  Str.cut "<!-- SLIDES_CONTENT -->" template = Some (pre, post) ->
  generateSlides C V = Ok slidesHTML ->
  noDollar slidesHTML = true ->
  fullyResolved (pre ++ slidesHTML ++ post) V ->
  generateSlideDeck template C V mappingContent lChapter
  = Ok (outputFileName (parseChapterMapping mappingContent lChapter),
        Str.replace "{{STATE_CHAPTER}}"
          (showOpt (stateChapter (parseChapterMapping mappingContent
                                    lChapter)))
          (pre ++ slidesHTML ++ post)).
Proof.
  intros Hcut Hslides Hdollar Hres.
  unfold generateSlideDeck. cbv zeta. rewrite Hslides. cbn [bindExc].
  rewrite (replace_cut _ slidesHTML _ _ _ Hcut).
  rewrite (getSubstitution_plain _ _ _ _ Hdollar).
  rewrite (interpolateVariables_resolved _ _ C Hres).
  reflexivity.
Qed.

Lemma generateSlideDeck_inserts_slides_witness :
  generateSlideDeck smallTemplate titleDeck oklahoma sampleMapping "L-03"
  = Ok ("chapter-1.3-slides.html",
        "<h1>Chapter 1.3</h1>" ++
        plainSlide (JStr "title") (JNum (Num.ofZ 1)) ++ "<p>End</p>").
Proof.
  refine (eq_trans
            (generateSlideDeck_inserts_slides smallTemplate
               "<h1>Chapter {{STATE_CHAPTER}}</h1>" "<p>End</p>"
               (plainSlide (JStr "title") (JNum (Num.ofZ 1)))
               titleDeck oklahoma sampleMapping "L-03" _ _ _ _) _).
  - vm_compute. reflexivity.
  - vm_compute. reflexivity.
  - vm_compute. reflexivity.
  - unfold fullyResolved.
    assert (E : replaceableNames oklahoma
                = [ "STATE_NAME"; "INCOME_TAX_RATE"; "HAS_STATE_TAX";
                    "CALCULATED_STATE_TAX_MONTHLY";
                    "CALCULATED_LOCAL_TAX_MONTHLY"; "CALCULATED_SDI_MONTHLY";
                    "CALCULATED_TOTAL_STATE_DEDUCTIONS";
                    "CHAPTER_TITLE"; "CHAPTER_SUBTITLE" ])
      by reflexivity.
    rewrite E.
    repeat (apply Forall_cons; [vm_compute; reflexivity|]).
    apply Forall_nil.
  - vm_compute. reflexivity.
Defined.

End DeckText.

Section TableCells.

Lemma trimEnd_idempotent (s : string) :
  Str.trimEnd (Str.trimEnd s) = Str.trimEnd s.
Proof.
  induction s as [|c s IH]; [reflexivity|].
  cbn [Str.trimEnd].
  destruct (Str.trimEnd s) as [|d t] eqn:E.
  - destruct (Str.isWhiteSpace c) eqn:Hc; [reflexivity|].
    cbn [Str.trimEnd]. now rewrite Hc.
  - cbn [Str.trimEnd] in *. now rewrite IH.
Qed.

Lemma headOk_trimStart (s : string) : headOk (Str.trimStart s) = true.
Proof.
  induction s as [|c s IH]; [reflexivity|].
  cbn [Str.trimStart].
  destruct (Str.isWhiteSpace c) eqn:Hc; [exact IH|].
  cbn [headOk]. now rewrite Hc.
Qed.

Lemma headOk_trimEnd (s : string) :
  headOk s = true -> headOk (Str.trimEnd s) = true.
Proof.
  destruct s as [|c s]; [reflexivity|].
  cbn [headOk Str.trimEnd]. intros Hc.
  apply negb_true_iff in Hc.
  destruct (Str.trimEnd s); rewrite ?Hc; cbn [headOk]; now rewrite Hc.
Qed.

Lemma trimStart_headOk (s : string) :
  headOk s = true -> Str.trimStart s = s.
Proof.
  destruct s as [|c s]; [reflexivity|].
  cbn [headOk Str.trimStart]. intros Hc.
  apply negb_true_iff in Hc. now rewrite Hc.
Qed.

Lemma trim_idempotent (s : string) : Str.trim (Str.trim s) = Str.trim s.
Proof.
  unfold Str.trim.
  rewrite (trimStart_headOk (Str.trimEnd (Str.trimStart s))).
  - apply trimEnd_idempotent.
  - apply headOk_trimEnd, headOk_trimStart.
Qed.

Lemma rowColumns_cells (row : string) : Forall isCell (rowColumns row).
Proof.
  unfold rowColumns. apply Forall_forall. intros cell H.
  apply filter_In in H as [Hin Hne].
  apply in_map_iff in Hin as (raw & <- & _).
  split.
  - intros E. rewrite E in Hne. discriminate Hne.
  - apply trim_idempotent.
Qed.

Lemma nth_error_cell (cells : list string) (n : nat) (cell : string) :
  Forall isCell cells -> nth_error cells n = Some cell -> isCell cell.
Proof.
  intros Hall Hnth. rewrite Forall_forall in Hall.
  apply Hall. exact (nth_error_In _ _ Hnth).
Qed.

Lemma scanRows_cells (rows : list string) (lChapter : string)
  (m : ChapterMapping) :
  scanRows rows lChapter = Some m ->
  isCell (title m) /\
  (forall chapter, stateChapter m = Some chapter -> isCell chapter).
Proof.
  induction rows as [|row rows IH]; [discriminate|].
  intros H.
  destruct (strictEqString (firstCell row) lChapter) eqn:Hrow.
  - apply strictEqString_true in Hrow.
    rewrite (scanRows_hit _ _ _ Hrow) in H. injection H as <-.
    pose proof (rowColumns_cells row) as Hcells.
    unfold mappingOfRow. cbn [title stateChapter].
    split.
    + destruct (nth_error (rowColumns row) 2) as [t|] eqn:E;
        cbn [orString].
      * destruct (nth_error_cell _ _ _ Hcells E) as [Hne Htrim].
        destruct t as [|a t]; [contradiction|].
        cbn [Str.isEmpty]. split; [discriminate | exact Htrim].
      * split; [discriminate | reflexivity].
    + intros chapter E. exact (nth_error_cell _ _ _ Hcells E).
  - apply IH.
    rewrite <- H. symmetry.
    apply (scanRows_skip lChapter [row] rows).
    apply Forall_cons; [|apply Forall_nil].
    intros E. apply strictEqString_true in E. congruence.
Qed.

(** X24: the chapter title the mapping parser returns is never empty and
    never has white space at either end, and so is the chapter number it
    reads off a table row; only the fallback chapter, taken from the
    chapter id, can be anything. *)
Theorem parseChapterMapping_cells (markdownContent lChapter : string) :
  isCell (title (parseChapterMapping markdownContent lChapter))
  /\ (forall m chapter,
        scanRows (tableRows markdownContent) lChapter = Some m ->
        stateChapter (parseChapterMapping markdownContent lChapter)
        = Some chapter ->
        isCell chapter).
Proof.
  unfold parseChapterMapping.
  destruct (scanRows (tableRows markdownContent) lChapter) as [m|] eqn:E.
  - destruct (scanRows_cells _ _ _ E) as [Ht Hc].
    split; [exact Ht|].
    intros m' chapter Hm' Hch. exact (Hc chapter Hch).
  - split; [split; [discriminate | reflexivity] | discriminate].
Qed.

End TableCells.

Section UnreadableRate.

Lemma mul_nan (x : spec_float) : Num.mul x S754_nan = S754_nan.
Proof. now destruct x. Qed.

Lemma add_nan_r (x : spec_float) : Num.add x S754_nan = S754_nan.
Proof. now destruct x. Qed.

Lemma add_nan_l (x : spec_float) : Num.add S754_nan x = S754_nan.
Proof. now destruct x. Qed.

Lemma currency_nan (baseAmount : spec_float) :
  currency (Num.div (Num.mul baseAmount S754_nan) (Num.ofZ 100)) = "$NaN".
Proof. rewrite mul_nan. reflexivity. Qed.

(** X25: a rate that does not read as a number (a text that does not
    start with one) puts [$NaN] into its own calculated field and into
    the total, whatever the base amount and the other rates; nothing
    fails. *)
Theorem calculated_fields_of_unreadable_rate (V : StateVars)
  (baseAmount : spec_float) (name : string)
  (f : StateVars -> spec_float -> string) :
  In (name, f) rateFields ->
  rateOf V name = S754_nan ->
  f V baseAmount = "$NaN"
  /\ CALCULATED_TOTAL_STATE_DEDUCTIONS V baseAmount = "$NaN".
Proof.
  intros Hin Hnan.
  unfold CALCULATED_TOTAL_STATE_DEDUCTIONS. cbv zeta.
  destruct Hin as [E|[E|[E|[]]]]; injection E as <- <-;
    unfold CALCULATED_STATE_TAX_MONTHLY, CALCULATED_LOCAL_TAX_MONTHLY,
      CALCULATED_SDI_MONTHLY; cbv zeta; rewrite Hnan;
    rewrite ?add_nan_l, ?add_nan_r, ?add_nan_l;
    split; apply currency_nan.
Qed.

Lemma calculated_fields_of_unreadable_rate_witness :
  CALCULATED_STATE_TAX_MONTHLY unreadableRate defaultBaseAmount = "$NaN"
  /\ CALCULATED_TOTAL_STATE_DEDUCTIONS unreadableRate defaultBaseAmount
     = "$NaN".
Proof.
  apply (calculated_fields_of_unreadable_rate unreadableRate
           defaultBaseAmount "INCOME_TAX_RATE").
  - left. reflexivity.
  - vm_compute. reflexivity.
Defined.

End UnreadableRate.
